(** * libIMG Editor: the shell around the libimg image model

    A shallow embedding of [main.py]: the [ImageWidget] that holds the image
    and paints pixels on pointer events, the [NewFileDialog] that collects
    the dimensions of a blank canvas, and the [MainWindow] actions behind
    the File menu.  Python methods that mutate [self] are computations in a
    state-and-exception monad; integers are [Z] and [//] is floor division
    with [ZeroDivisionError] written out; list subscripts follow Python
    (negative indices count from the end, [IndexError] out of range).
    What the user and the file system answer (the dialog's fields, the
    chosen path, the outcome of reading or writing a file) comes in with
    each event.  The enabling and disabling of the menu entries is left
    out: no action reads it. *)

From Stdlib Require Import ZArith Lia.
From stdpp Require Import base list strings.

Local Open Scope Z_scope.

(** ** Python exceptions and the state-and-exception monad *)

Inductive exn : Type :=
| ZeroDivisionError
| IndexError
| AttributeError
| ValueError (msg : string)
| OtherError (msg : string).

Inductive outcome (A : Type) : Type :=
| Returned (a : A)
| Raised (e : exn).
Arguments Returned {A} a.
Arguments Raised {A} e.

(** A method body: from the object's state to how the call ended and the
    state it left behind.  A raised exception keeps every assignment made
    before it. *)
Definition M (S A : Type) : Type := S -> outcome A * S.

Definition ret {S A} (a : A) : M S A := fun s => (Returned a, s).

Definition raise {S A} (e : exn) : M S A := fun s => (Raised e, s).

Definition bind {S A B} (m : M S A) (k : A -> M S B) : M S B :=
  fun s =>
    match m s with
    | (Returned a, s') => k a s'
    | (Raised e, s') => (Raised e, s')
    end.

Definition get {S} : M S S := fun s => (Returned s, s).

Definition modify {S} (f : S -> S) : M S unit := fun s => (Returned tt, f s).

Definition lift_outcome {S A} (o : outcome A) : M S A := fun s => (o, s).

Notation "'let*' x := c 'in' k" := (bind c (fun x => k))
  (at level 10, x pattern, c at level 100, k at level 200).
Notation "c ;;; k" := (bind c (fun _ => k))
  (at level 100, k at level 200, right associativity).

(** [for x in xs: body(x)] *)
Fixpoint for_each {S A} (xs : list A) (body : A -> M S unit) : M S unit :=
  match xs with
  | [] => ret tt
  | x :: xs' => body x ;;; for_each xs' body
  end.

(** [try: body  except ValueError as e: handler(str(e))] *)
Definition try_except_ValueError {S A} (body : M S A)
    (handler : string -> M S A) : M S A :=
  fun s =>
    match body s with
    | (Raised (ValueError msg), s') => handler msg s'
    | r => r
    end.

(** ** Python integers and lists *)

(** [a // b] *)
Definition py_floordiv (a b : Z) : outcome Z :=
  if b =? 0 then Raised ZeroDivisionError else Returned (a / b).

(** [range(n)] *)
Definition py_range (n : Z) : list Z := seqZ 0 n.

(** The position a subscript [i] denotes in a sequence of length [n]. *)
Definition py_index (n : nat) (i : Z) : option nat :=
  if (0 <=? i) && (i <? Z.of_nat n) then Some (Z.to_nat i)
  else if (- Z.of_nat n <=? i) && (i <? 0) then Some (Z.to_nat (Z.of_nat n + i))
  else None.

(** [l[i]] *)
Definition py_getitem {A} (l : list A) (i : Z) : outcome A :=
  match py_index (length l) i with
  | Some k =>
      match l !! k with
      | Some a => Returned a
      | None => Raised IndexError
      end
  | None => Raised IndexError
  end.

(** [l[i] = v] *)
Definition py_setitem {A} (l : list A) (i : Z) (v : A) : outcome (list A) :=
  match py_index (length l) i with
  | Some k => Returned (<[k:=v]> l)
  | None => Raised IndexError
  end.

(** [a[i][j]] *)
Definition py_getitem2 {A} (a : list (list A)) (i j : Z) : outcome A :=
  match py_getitem a i with
  | Returned row => py_getitem row j
  | Raised e => Raised e
  end.

(** [a[i][j] = v]: the row [a[i]] is fetched first, then updated in place. *)
Definition py_setitem2 {A} (a : list (list A)) (i j : Z) (v : A)
    : outcome (list (list A)) :=
  match py_index (length a) i with
  | Some k =>
      match a !! k with
      | Some row =>
          match py_setitem row j v with
          | Returned row' => Returned (<[k:=row']> a)
          | Raised e => Raised e
          end
      | None => Raised IndexError
      end
  | None => Raised IndexError
  end.

(** ** The libimg [Image] class *)

Module Image.

(** Modelled from the spec: the [Image] class of the libimg package is
    imported by [main.py] and is not part of it.  An image is the
    row-major pixel grid together with its format tag (spec section 3);
    the constructor [Image(pixel_array, format)] stores both, the
    accessors read them back, the height is the number of rows and the
    width the number of values of a row. *)
Record t : Type := new { to_array : list (list Z); get_image_format : Z }.

(** Modelled from the spec: the format tag of the one defined format,
    [Bitonal], is the byte 0 (spec section 8, first example). *)
Definition Format_BW : Z := 0.

(** [get_height()]: the number of rows. *)
Definition get_height (img : t) : Z := Z.of_nat (length (to_array img)).

(** [get_width()]: the number of values of a row, 0 without rows. *)
Definition get_width (img : t) : Z :=
  Z.of_nat (length (hd [] (to_array img))).

(** Modelled from the spec: [bool(image)].  The class is an ordinary
    object, so an image is truthy; only [None] is not. *)
Definition truthy (img : option t) : bool :=
  match img with
  | Some _ => true
  | None => false
  end.

(** Spec section 3: every row has exactly [width] elements. *)
Definition rectangular (img : t) : Prop :=
  Forall (fun row => Z.of_nat (length row) = get_width img) (to_array img).

(** The pixel at row [r], column [c], counted from 0. *)
Definition pixel (img : t) (r c : nat) : option Z :=
  to_array img !! r ≫= fun row => row !! c.

End Image.

(** ** Qt values the widget holds *)

Module QImage.

(** A [QImage] of format RGB32: its pixels, row by row. *)
Definition t : Type := list (list Z).

Definition qRgb (r g b : Z) : Z :=
  Z.lor (Z.shiftl 255 24)
    (Z.lor (Z.shiftl (Z.land r 255) 16)
       (Z.lor (Z.shiftl (Z.land g 255) 8) (Z.land b 255))).

(** [QImage(width, height, Format_RGB32)] *)
Definition new (width height : Z) : t :=
  replicate (Z.to_nat height) (replicate (Z.to_nat width) 0).

(** [fill(color)] *)
Definition fill (color : Z) (q : t) : t :=
  (fun row : list Z => (fun _ => color) <$> row) <$> (q : list (list Z)).

(** [setPixel(x, y, color)]; a position outside the image is ignored. *)
Definition setPixel (x y color : Z) : M t unit :=
  modify (fun q =>
    if (0 <=? x) && (0 <=? y) then
      match q !! Z.to_nat y with
      | Some row => <[Z.to_nat y := <[Z.to_nat x := color]> row]> q
      | None => q
      end
    else q).

End QImage.

(** [QPixmap.fromImage(q.scaledToHeight(h))] *)
Record QPixmap : Type := scaledToHeight { pixmap_source : QImage.t; pixmap_height : Z }.

Record QMouseEvent : Type := { pos_x : Z; pos_y : Z }.

(** ** ImageWidget *)

Module ImageWidget.

Record t : Type := {
  _image : option Image.t;
  _qimage : option QImage.t;
  _edit_mode : bool;
  _label : option QPixmap
}.

(** [ImageWidget.__init__] *)
Definition __init__ : t :=
  {| _image := None; _qimage := None; _edit_mode := false; _label := None |}.

Definition set__image (v : option Image.t) : M t unit :=
  modify (fun self => {| _image := v; _qimage := _qimage self;
                         _edit_mode := _edit_mode self; _label := _label self |}).

Definition set__qimage (v : option QImage.t) : M t unit :=
  modify (fun self => {| _image := _image self; _qimage := v;
                         _edit_mode := _edit_mode self; _label := _label self |}).

Definition set__label (v : option QPixmap) : M t unit :=
  modify (fun self => {| _image := _image self; _qimage := _qimage self;
                         _edit_mode := _edit_mode self; _label := v |}).

(** [self._image.<method>]: a method call on [None] raises. *)
Definition deref__image : M t Image.t :=
  let* self := get in
  match _image self with
  | Some img => ret img
  | None => raise AttributeError
  end.

Definition get_image : M t (option Image.t) :=
  let* self := get in ret (_image self).

Definition set_edit_mode (mode : bool) : M t unit :=
  modify (fun self => {| _image := _image self; _qimage := _qimage self;
                         _edit_mode := mode; _label := _label self |}).

(** The two nested loops of [_draw_image], run on the fresh [QImage]. *)
Definition draw_pixels (img : Image.t) : M QImage.t unit :=
  let black := QImage.qRgb 0 0 0 in
  let white := QImage.qRgb 255 255 255 in
  let pixel_array := Image.to_array img in
  if Image.get_image_format img =? Image.Format_BW then
    for_each (py_range (Image.get_height img)) (fun row =>
      for_each (py_range (Image.get_width img)) (fun col =>
        let* p := lift_outcome (py_getitem2 pixel_array row col) in
        let color := if p =? 1 then black else white in
        QImage.setPixel col row color))
  else ret tt.

Definition _draw_image : M t unit :=
  let white := QImage.qRgb 255 255 255 in
  let* img := deref__image in
  let q0 := QImage.fill white
              (QImage.new (Image.get_width img) (Image.get_height img)) in
  let (drawn, q) := draw_pixels img q0 in
  set__qimage (Some q) ;;;
  lift_outcome drawn ;;;
  set__label (Some (scaledToHeight q 300)).

Definition set_image (image : Image.t) : M t unit :=
  set__image (Some image) ;;;
  _draw_image.

Definition _draw_pixel (event : QMouseEvent) : M t unit :=
  let* self := get in
  if negb (Image.truthy (_image self)) || negb (_edit_mode self) then ret tt
  else
    let* img := deref__image in
    let* pixel_size := lift_outcome (py_floordiv 300 (Image.get_height img)) in
    let* x_pos := lift_outcome (py_floordiv (pos_x event - 9) pixel_size) in
    let* y_pos := lift_outcome (py_floordiv (pos_y event - 9) pixel_size) in
    if (x_pos >=? Image.get_width img) || (y_pos >=? Image.get_height img)
    then ret tt
    else
      let pixel_array := Image.to_array img in
      let* pixel_array := lift_outcome (py_setitem2 pixel_array y_pos x_pos 1) in
      set__image (Some (Image.new pixel_array (Image.get_image_format img))) ;;;
      _draw_image.

Definition mouseMoveEvent (event : QMouseEvent) : M t unit :=
  _draw_pixel event.

Definition mousePressEvent (event : QMouseEvent) : M t unit :=
  _draw_pixel event.

End ImageWidget.

(** ** NewFileDialog and the Qt input widgets it is built from *)

Module QSpinBox.

(** Modelled from the spec: [QSpinBox] is a Qt class, not part of
    [main.py].  A spin box holds a range and a value; the value is kept
    inside the range whenever the range or the value is set, which is how
    the shell constrains the user's input to 1..=65535 (spec section 6).
    A new spin box has range 0..99 and value 0. *)
Record t : Type := { minimum : Z; maximum : Z; value : Z }.

(** [QSpinBox()] *)
Definition new : t := {| minimum := 0; maximum := 99; value := 0 |}.

(** The value nearest to [v] within [lo..hi]. *)
Definition bound (lo hi v : Z) : Z := Z.min hi (Z.max lo v).

(** [setRange(lo, hi)] *)
Definition setRange (lo hi : Z) (sb : t) : t :=
  let hi' := if lo <? hi then hi else lo in
  {| minimum := lo; maximum := hi'; value := bound lo hi' (value sb) |}.

(** [setValue(v)], also what typing or stepping to [v] does. *)
Definition setValue (v : Z) (sb : t) : t :=
  {| minimum := minimum sb; maximum := maximum sb;
     value := bound (minimum sb) (maximum sb) v |}.

End QSpinBox.

Module QComboBox.

(** Modelled from the spec: [QComboBox] is a Qt class, not part of
    [main.py].  A combo box lists its items and the index of the current
    one, -1 while it is empty; the first item added becomes the current
    one, and the user can only pick an item that is listed. *)
Record t : Type := { items : list string; currentIndex : Z }.

(** [QComboBox()] *)
Definition new : t := {| items := []; currentIndex := -1 |}.

(** [addItem(text)] *)
Definition addItem (text : string) (cb : t) : t :=
  {| items := items cb ++ [text];
     currentIndex := match items cb with
                     | [] => 0
                     | _ => currentIndex cb
                     end |}.

(** The user picks the item at index [i]. *)
Definition activate (i : Z) (cb : t) : t :=
  if (0 <=? i) && (i <? Z.of_nat (length (items cb)))
  then {| items := items cb; currentIndex := i |}
  else cb.

End QComboBox.

Inductive DialogCode : Type := Rejected | Accepted.

(** What the user does in the dialog before closing it. *)
Inductive UserInput : Type :=
| EnterWidth (v : Z)
| EnterHeight (v : Z)
| ChooseFormat (i : Z).

Module NewFileDialog.

Record t : Type := {
  _width_spinbox : QSpinBox.t;
  _height_spinbox : QSpinBox.t;
  _image_format_box : QComboBox.t
}.

(** [NewFileDialog.__init__] *)
Definition __init__ : t :=
  let _width_spinbox := QSpinBox.new in
  let _width_spinbox := QSpinBox.setRange 1 65535 _width_spinbox in
  let _height_spinbox := QSpinBox.new in
  let _height_spinbox := QSpinBox.setRange 1 65535 _height_spinbox in
  let _image_format_box := QComboBox.new in
  let _image_format_box := QComboBox.addItem "Black and white" _image_format_box in
  {| _width_spinbox := _width_spinbox;
     _height_spinbox := _height_spinbox;
     _image_format_box := _image_format_box |}.

Definition input (u : UserInput) (self : t) : t :=
  match u with
  | EnterWidth v =>
      {| _width_spinbox := QSpinBox.setValue v (_width_spinbox self);
         _height_spinbox := _height_spinbox self;
         _image_format_box := _image_format_box self |}
  | EnterHeight v =>
      {| _width_spinbox := _width_spinbox self;
         _height_spinbox := QSpinBox.setValue v (_height_spinbox self);
         _image_format_box := _image_format_box self |}
  | ChooseFormat i =>
      {| _width_spinbox := _width_spinbox self;
         _height_spinbox := _height_spinbox self;
         _image_format_box := QComboBox.activate i (_image_format_box self) |}
  end.

(** [exec_()]: the dialog is modal; the user edits the fields, then closes
    it with Ok or Cancel. *)
Definition exec_ (user : list UserInput) (closed_with : DialogCode)
    : M t DialogCode :=
  modify (fun self => foldl (fun d u => input u d) self user) ;;;
  ret closed_with.

Definition get_image_width (self : t) : Z := QSpinBox.value (_width_spinbox self).

Definition get_image_height (self : t) : Z := QSpinBox.value (_height_spinbox self).

Definition get_image_format (self : t) : Z :=
  QComboBox.currentIndex (_image_format_box self).

End NewFileDialog.

(** ** MainWindow *)

Inductive Icon : Type := NoIcon | Information | Warning | Critical.

Record QMessageBox : Type := {
  icon : Icon;
  text : string;
  informativeText : string;
  windowTitle : string
}.

Module MainWindow.

(** The window owns the image widget; the message boxes it has shown and
    the files it has written are kept as logs, newest first. *)
Record t : Type := {
  _image_widget : ImageWidget.t;
  shown : list QMessageBox;
  written : list (string * Image.t)
}.

(** [MainWindow.__init__] with the default [image_widget=None]. *)
Definition __init__ : t :=
  {| _image_widget := ImageWidget.__init__; shown := []; written := [] |}.

(** A method call on [self._image_widget]. *)
Definition on_image_widget {A} (m : M ImageWidget.t A) : M t A :=
  fun self =>
    let (o, w) := m (_image_widget self) in
    (o, {| _image_widget := w; shown := shown self; written := written self |}).

Definition show (box : QMessageBox) : M t unit :=
  modify (fun self =>
    {| _image_widget := _image_widget self; shown := box :: shown self;
       written := written self |}).

Definition log_write (filepath : string) (img : Image.t) : M t unit :=
  modify (fun self =>
    {| _image_widget := _image_widget self; shown := shown self;
       written := (filepath, img) :: written self |}).

(** [filepath] is what the file chooser returned (empty when cancelled);
    [from_file] is [Image.from_file] on the file system of the moment. *)
Definition open_file_action (filepath : string)
    (from_file : string -> outcome Image.t) : M t unit :=
  if bool_decide (filepath = EmptyString) then ret tt
  else
    try_except_ValueError
      (let* image := lift_outcome (from_file filepath) in
       on_image_widget (ImageWidget.set_image image))
      (fun e =>
         show {| icon := Critical; text := "Error"; informativeText := e;
                 windowTitle := "Error loading file" |}).

(** [user] and [closed_with] are what happens inside [diag.exec_()]. *)
Definition new_file_action (user : list UserInput) (closed_with : DialogCode)
    : M t unit :=
  let diag := NewFileDialog.__init__ in
  let (code, diag) := NewFileDialog.exec_ user closed_with diag in
  match code with
  | Returned Accepted =>
      let pixel_array := [] in
      let pixel_array :=
        if NewFileDialog.get_image_format diag =? Image.Format_BW then
          (fun _ => (fun _ => 0) <$> py_range (NewFileDialog.get_image_width diag))
            <$> py_range (NewFileDialog.get_image_height diag)
        else pixel_array in
      let new_image := Image.new pixel_array (NewFileDialog.get_image_format diag) in
      on_image_widget (ImageWidget.set_image new_image) ;;;
      on_image_widget (ImageWidget.set_edit_mode true)
  | Returned Rejected => ret tt
  | Raised e => raise e
  end.

(** [filepath] is what the file chooser returned; [write_to_file] is the
    image's method on the file system of the moment. *)
Definition save_file_action (filepath : string)
    (write_to_file : Image.t -> string -> outcome unit) : M t unit :=
  let* image := on_image_widget ImageWidget.get_image in
  if negb (Image.truthy image) then ret tt
  else if bool_decide (filepath = EmptyString) then ret tt
  else
    let* image := on_image_widget ImageWidget.deref__image in
    lift_outcome (write_to_file image filepath) ;;;
    log_write filepath image.

End MainWindow.

(** ** The event loop *)

Inductive ShellEvent : Type :=
| NewFile (user : list UserInput) (closed_with : DialogCode)
| OpenFile (filepath : string) (from_file : string -> outcome Image.t)
| SaveFile (filepath : string) (write_to_file : Image.t -> string -> outcome unit)
| MouseMove (event : QMouseEvent)
| MousePress (event : QMouseEvent).

Definition dispatch (ev : ShellEvent) : M MainWindow.t unit :=
  match ev with
  | NewFile user closed_with => MainWindow.new_file_action user closed_with
  | OpenFile filepath from_file => MainWindow.open_file_action filepath from_file
  | SaveFile filepath write_to_file => MainWindow.save_file_action filepath write_to_file
  | MouseMove event => MainWindow.on_image_widget (ImageWidget.mouseMoveEvent event)
  | MousePress event => MainWindow.on_image_widget (ImageWidget.mousePressEvent event)
  end.

(** [app.exec_()]: events are handled one after the other.  An exception
    that escapes a handler leaves the window as it was when it was raised;
    the loop goes on with the next event (a run that stops there is a prefix
    of this one). *)
Definition exec_ (events : list ShellEvent) (window : MainWindow.t) : MainWindow.t :=
  foldl (fun w ev => snd (dispatch ev w)) window events.

(** The pointer events alone, on the widget. *)
Definition pointer_events (events : list QMouseEvent) (self : ImageWidget.t)
    : ImageWidget.t :=
  foldl (fun w ev => snd (ImageWidget._draw_pixel ev w)) self events.

(** * What the statements are phrased with *)

(** Lines 169-173 of [_draw_pixel]: the cell [(y_pos, x_pos)] that the
    handler computes from the event. *)
Definition cell_of_event (img : Image.t) (event : QMouseEvent) : outcome (Z * Z) :=
  match py_floordiv 300 (Image.get_height img) with
  | Returned pixel_size =>
      match py_floordiv (pos_x event - 9) pixel_size with
      | Returned x_pos =>
          match py_floordiv (pos_y event - 9) pixel_size with
          | Returned y_pos => Returned (y_pos, x_pos)
          | Raised e => Raised e
          end
      | Raised e => Raised e
      end
  | Raised e => Raised e
  end.

(** Lines 179-182 of [_draw_pixel]: the paint itself. *)
Definition paint (img : Image.t) (y_pos x_pos : Z) : M ImageWidget.t unit :=
  let pixel_array := Image.to_array img in
  let* pixel_array := lift_outcome (py_setitem2 pixel_array y_pos x_pos 1) in
  ImageWidget.set__image (Some (Image.new pixel_array (Image.get_image_format img))) ;;;
  ImageWidget._draw_image.

(** Spec section 4.4, steps 2 and 3, in the spec's words: the pixel size is
    the display height budget divided by the image height, truncated; the
    border offset is subtracted from each display coordinate before the
    integer division by the pixel size.  There is no cell where a divisor
    is zero. *)
Definition handle_pointer_event_cell (display_height_budget border_offset : Z)
    (image_height display_x display_y : Z) : option (Z * Z) :=
  if image_height =? 0 then None
  else
    let pixel_size := display_height_budget ÷ image_height in
    if pixel_size =? 0 then None
    else
      let col := (display_x - border_offset) / pixel_size in
      let row := (display_y - border_offset) / pixel_size in
      Some (row, col).

(** Spec section 4.1, [set(row, col, value)]: the grid with that one cell
    replaced. *)
Definition PixelBuffer_set (img : Image.t) (row col : nat) (value : Z) : Image.t :=
  Image.new (alter (fun r => <[col:=value]> r) row (Image.to_array img))
    (Image.get_image_format img).

(** The pixel the widget's image holds at row [r], column [c]. *)
Definition pixel_of (self : ImageWidget.t) (r c : nat) : option Z :=
  ImageWidget._image self ≫= fun img => Image.pixel img r c.

(** What [_draw_image] leaves on screen for an image. *)
Definition render (img : Image.t) : QImage.t :=
  snd (ImageWidget.draw_pixels img
         (QImage.fill (QImage.qRgb 255 255 255)
            (QImage.new (Image.get_width img) (Image.get_height img)))).

(** The widget showing [img]. *)
Definition showing (img : Image.t) (edit_mode : bool) : ImageWidget.t :=
  {| ImageWidget._image := Some img;
     ImageWidget._qimage := Some (render img);
     ImageWidget._edit_mode := edit_mode;
     ImageWidget._label := Some (scaledToHeight (render img) 300) |}.

(** What holds of the dialog from its construction on, whatever the user
    enters. *)
Definition dialog_in_range (d : NewFileDialog.t) : Prop :=
  QSpinBox.minimum (NewFileDialog._width_spinbox d) = 1
  /\ QSpinBox.maximum (NewFileDialog._width_spinbox d) = 65535
  /\ 1 <= QSpinBox.value (NewFileDialog._width_spinbox d) <= 65535
  /\ QSpinBox.minimum (NewFileDialog._height_spinbox d) = 1
  /\ QSpinBox.maximum (NewFileDialog._height_spinbox d) = 65535
  /\ 1 <= QSpinBox.value (NewFileDialog._height_spinbox d) <= 65535
  /\ length (QComboBox.items (NewFileDialog._image_format_box d)) = 1%nat
  /\ QComboBox.currentIndex (NewFileDialog._image_format_box d) = 0.

Definition dialog_after (user : list UserInput) (closed_with : DialogCode)
    : NewFileDialog.t :=
  snd (NewFileDialog.exec_ user closed_with NewFileDialog.__init__).

(** The image [new_file_action] builds from the dialog. *)
Definition new_image_of (diag : NewFileDialog.t) : Image.t :=
  Image.new
    (if NewFileDialog.get_image_format diag =? Image.Format_BW
     then replicate (Z.to_nat (NewFileDialog.get_image_height diag))
            (replicate (Z.to_nat (NewFileDialog.get_image_width diag)) 0)
     else [])
    (NewFileDialog.get_image_format diag).

Definition edit_mode_of (window : MainWindow.t) : bool :=
  ImageWidget._edit_mode (MainWindow._image_widget window).

(** The window's image, if any, has rows of equal length. *)
Definition holds_rectangular (window : MainWindow.t) : Prop :=
  forall img,
    ImageWidget._image (MainWindow._image_widget window) = Some img ->
    Image.rectangular img.

(** A file that is opened decodes, if at all, to rows of equal length
    (spec section 4.2: exactly [width * height] pixels, row by row). *)
Definition decodes_rectangular (ev : ShellEvent) : Prop :=
  match ev with
  | OpenFile filepath from_file =>
      forall img, from_file filepath = Returned img -> Image.rectangular img
  | _ => True
  end.

Definition canvas_2x2 : ImageWidget.t :=
  showing (Image.new [[0; 0]; [0; 0]] Image.Format_BW) true.

Definition canvas_4x3 : ImageWidget.t :=
  showing (Image.new [[0; 0; 0; 0]; [0; 0; 0; 0]; [0; 0; 0; 0]] Image.Format_BW) true.

(** The width, the height and the format of the widget's image. *)
Definition image_shape (self : ImageWidget.t) : option (Z * Z * Z) :=
  (fun img => (Image.get_width img, Image.get_height img, Image.get_image_format img))
    <$> ImageWidget._image self.

(** Every pixel is 0 or 1. *)
Definition bitonal (img : Image.t) : Prop :=
  Forall (Forall (fun p => p = 0 \/ p = 1)) (Image.to_array img).

(** A widget in edit mode holding [img], nothing drawn yet. *)
Definition editing (img : Image.t) : ImageWidget.t :=
  {| ImageWidget._image := Some img; ImageWidget._qimage := None;
     ImageWidget._edit_mode := true; ImageWidget._label := None |}.

(** Line 159 of [_draw_image]: black for the value 1, white otherwise. *)
Definition color_of (p : Z) : Z :=
  if p =? 1 then QImage.qRgb 0 0 0 else QImage.qRgb 255 255 255.

(** The event is a pointer event. *)
Definition is_pointer (ev : ShellEvent) : bool :=
  match ev with
  | MouseMove _ | MousePress _ => true
  | _ => false
  end.

(** The event is a new-image dialog closed with Ok. *)
Definition is_accepted_new (ev : ShellEvent) : bool :=
  match ev with
  | NewFile _ Accepted => true
  | _ => false
  end.

(** * Properties *)

(** ** Subscripts *)

Lemma py_index_inside (n : nat) (i : Z) :
  0 <= i < Z.of_nat n -> py_index n i = Some (Z.to_nat i).
Proof.
  intros H. unfold py_index.
  destruct ((0 <=? i) && (i <? Z.of_nat n)) eqn:E; [reflexivity | lia].
Qed.

Lemma py_getitem_inside {A} (l : list A) (i : Z) :
  0 <= i < Z.of_nat (length l) ->
  exists a, l !! Z.to_nat i = Some a /\ py_getitem l i = Returned a.
Proof.
  intros H. unfold py_getitem. rewrite py_index_inside by done.
  destruct (lookup_lt_is_Some_2 l (Z.to_nat i)) as [a Ha]; [lia|].
  exists a. by rewrite Ha.
Qed.

Lemma elem_of_py_range (n i : Z) : i ∈ py_range n <-> 0 <= i < n.
Proof. unfold py_range. rewrite elem_of_seqZ. lia. Qed.

(** ** Loops *)

Lemma for_each_returns {S A} (xs : list A) (body : A -> M S unit) :
  (forall x, x ∈ xs -> forall s, fst (body x s) = Returned tt) ->
  forall s, fst (for_each xs body s) = Returned tt.
Proof.
  induction xs as [|x xs IH]; intros Hbody s; [reflexivity|].
  cbn [for_each]. unfold bind.
  pose proof (Hbody x ltac:(left) s) as Hx.
  destruct (body x s) as [[[]|e] s']; cbn in Hx; [|discriminate].
  apply IH. intros y Hy. apply Hbody. by right.
Qed.

(** ** Images with rows of equal length *)

Lemma rectangular_row (img : Image.t) (k : nat) (row : list Z) :
  Image.rectangular img -> Image.to_array img !! k = Some row ->
  Z.of_nat (length row) = Image.get_width img.
Proof. intros Hrect Hk. exact (Forall_lookup_1 _ _ _ _ Hrect Hk). Qed.

Lemma draw_pixels_returns (img : Image.t) (q : QImage.t) :
  Image.rectangular img -> fst (ImageWidget.draw_pixels img q) = Returned tt.
Proof.
  intros Hrect. unfold ImageWidget.draw_pixels.
  destruct (Image.get_image_format img =? Image.Format_BW); [|reflexivity].
  apply for_each_returns. intros row Hrow. apply for_each_returns.
  intros col Hcol q'.
  apply elem_of_py_range in Hrow. apply elem_of_py_range in Hcol.
  destruct (py_getitem_inside (Image.to_array img) row Hrow) as (r & Hr & Hget).
  pose proof (rectangular_row img _ r Hrect Hr) as Hlen.
  destruct (py_getitem_inside r col) as (p & Hp & Hgetp); [lia|].
  unfold bind, lift_outcome, py_getitem2. rewrite Hget, Hgetp. reflexivity.
Qed.

Lemma _draw_image_rectangular (self : ImageWidget.t) (img : Image.t) :
  ImageWidget._image self = Some img -> Image.rectangular img ->
  ImageWidget._draw_image self
  = (Returned tt, showing img (ImageWidget._edit_mode self)).
Proof.
  intros Himg Hrect.
  unfold ImageWidget._draw_image, ImageWidget.deref__image, bind, get.
  rewrite Himg. unfold ret.
  pose proof (draw_pixels_returns img
    (QImage.fill (QImage.qRgb 255 255 255)
       (QImage.new (Image.get_width img) (Image.get_height img))) Hrect) as Hret.
  unfold showing, render.
  destruct (ImageWidget.draw_pixels img _) as [drawn q]. cbn in Hret. subst drawn.
  unfold ImageWidget.set__qimage, ImageWidget.set__label, modify, lift_outcome.
  cbn. by rewrite Himg.
Qed.

(** Whatever happens while drawing, the image and the mode stay. *)
Lemma _draw_image_keeps (self : ImageWidget.t) :
  ImageWidget._image (snd (ImageWidget._draw_image self)) = ImageWidget._image self
  /\ ImageWidget._edit_mode (snd (ImageWidget._draw_image self))
     = ImageWidget._edit_mode self.
Proof.
  unfold ImageWidget._draw_image, ImageWidget.deref__image, bind, get.
  destruct (ImageWidget._image self) as [img|] eqn:Himg; [|by rewrite ?Himg].
  unfold ret, ImageWidget.set__qimage, ImageWidget.set__label, modify, lift_outcome.
  destruct (ImageWidget.draw_pixels img _) as [[[]|e] q]; cbn; by rewrite ?Himg.
Qed.

Lemma set_image_rectangular (self : ImageWidget.t) (img : Image.t) :
  Image.rectangular img ->
  ImageWidget.set_image img self
  = (Returned tt, showing img (ImageWidget._edit_mode self)).
Proof.
  intros Hrect. unfold ImageWidget.set_image, bind, ImageWidget.set__image, modify.
  by rewrite (_draw_image_rectangular _ img).
Qed.

(** ** The pointer-event handler, piece by piece *)

Lemma _draw_pixel_editing (self : ImageWidget.t) (img : Image.t) (event : QMouseEvent) :
  ImageWidget._image self = Some img -> ImageWidget._edit_mode self = true ->
  ImageWidget._draw_pixel event self
  = match cell_of_event img event with
    | Returned (y_pos, x_pos) =>
        if (x_pos >=? Image.get_width img) || (y_pos >=? Image.get_height img)
        then (Returned tt, self)
        else paint img y_pos x_pos self
    | Raised e => (Raised e, self)
    end.
Proof.
  intros Himg Hedit.
  unfold ImageWidget._draw_pixel, cell_of_event, ImageWidget.deref__image, bind, get.
  rewrite Himg, Hedit. cbn [Image.truthy negb orb]. rewrite Himg.
  unfold ret, lift_outcome.
  destruct (py_floordiv 300 (Image.get_height img)) as [pixel_size|e]; [|done].
  destruct (py_floordiv (pos_x event - 9) pixel_size) as [x_pos|e]; [|done].
  destruct (py_floordiv (pos_y event - 9) pixel_size) as [y_pos|e]; [|done].
  by destruct ((x_pos >=? Image.get_width img) || (y_pos >=? Image.get_height img)).
Qed.

Lemma insert_row_alter {A} (a : list (list A)) (k : nat) (row : list A)
    (f : list A -> list A) :
  a !! k = Some row -> <[k:=f row]> a = alter f k a.
Proof.
  intros Hk. apply list_eq. intros i.
  rewrite list_lookup_alter, list_lookup_insert.
  pose proof (lookup_lt_Some _ _ _ Hk).
  repeat case_decide; subst; try lia; by rewrite ?Hk.
Qed.

(** What a successful [a[i][j] = v] leaves. *)
Lemma py_setitem2_Returned {A} (a a' : list (list A)) (i j : Z) (v : A) :
  py_setitem2 a i j v = Returned a' ->
  exists k c, a' = alter (fun r => <[c:=v]> r) k a.
Proof.
  unfold py_setitem2, py_setitem. intros H.
  destruct (py_index (length a) i) as [k|]; [|discriminate].
  destruct (a !! k) as [row|] eqn:Hk; [|discriminate].
  destruct (py_index (length row) j) as [c|]; [|discriminate].
  injection H as <-. exists k, c.
  by apply (insert_row_alter a k row (fun r => <[c:=v]> r)).
Qed.

Lemma py_setitem2_inside {A} (a : list (list A)) (i j : Z) (v : A) (row : list A) :
  0 <= i < Z.of_nat (length a) -> a !! Z.to_nat i = Some row ->
  0 <= j < Z.of_nat (length row) ->
  py_setitem2 a i j v
  = Returned (alter (fun r => <[Z.to_nat j:=v]> r) (Z.to_nat i) a).
Proof.
  intros Hi Hrow Hj. unfold py_setitem2, py_setitem.
  rewrite (py_index_inside _ i Hi), Hrow, (py_index_inside _ j Hj).
  f_equal. by apply (insert_row_alter a _ row (fun r => <[Z.to_nat j:=v]> r)).
Qed.

Lemma get_height_set (img : Image.t) (k c : nat) (v : Z) :
  Image.get_height (PixelBuffer_set img k c v) = Image.get_height img.
Proof. unfold Image.get_height, PixelBuffer_set. cbn. by rewrite length_alter. Qed.

Lemma get_width_set (img : Image.t) (k c : nat) (v : Z) :
  Image.get_width (PixelBuffer_set img k c v) = Image.get_width img.
Proof.
  unfold Image.get_width, PixelBuffer_set. cbn.
  destruct (Image.to_array img) as [|r a]; [by destruct k|].
  destruct k; cbn; by rewrite ?length_insert.
Qed.

Lemma rectangular_set (img : Image.t) (k c : nat) (v : Z) :
  Image.rectangular img -> Image.rectangular (PixelBuffer_set img k c v).
Proof.
  intros Hrect. unfold Image.rectangular. rewrite get_width_set.
  apply Forall_lookup. intros i r Hi. cbn in Hi.
  rewrite list_lookup_alter in Hi. case_decide as Hki.
  - subst i. destruct (Image.to_array img !! k) as [r0|] eqn:Hk; [|discriminate].
    cbn in Hi. injection Hi as <-. rewrite length_insert.
    by apply (rectangular_row img k).
  - by apply (rectangular_row img i).
Qed.

Lemma pixel_set (img : Image.t) (k c : nat) (v : Z) (r j : nat) :
  Image.pixel (PixelBuffer_set img k c v) r j
  = if decide (k = r /\ c = j)
    then (fun _ => v) <$> Image.pixel img r j
    else Image.pixel img r j.
Proof.
  unfold Image.pixel, PixelBuffer_set. cbn. rewrite list_lookup_alter.
  case_decide as Hk.
  - subst r. destruct (Image.to_array img !! k) as [row|]; cbn.
    + rewrite list_lookup_insert.
      case_decide as Hc.
      * destruct Hc as [-> Hlt]. rewrite decide_True by done.
        destruct (lookup_lt_is_Some_2 row j Hlt) as [p ->]. done.
      * case_decide as Hkc; [|done]. destruct Hkc as [_ ->].
        rewrite lookup_ge_None_2 by lia. done.
    + by case_decide.
  - case_decide as Hkc; [|done]. by destruct Hkc.
Qed.

(** The paint at a cell inside a rectangular image succeeds and is the
    spec's [set(row, col, 1)]. *)
Lemma paint_inside (self : ImageWidget.t) (img : Image.t) (y_pos x_pos : Z) :
  Image.rectangular img ->
  0 <= y_pos < Image.get_height img -> 0 <= x_pos < Image.get_width img ->
  paint img y_pos x_pos self
  = (Returned tt,
     showing (PixelBuffer_set img (Z.to_nat y_pos) (Z.to_nat x_pos) 1)
       (ImageWidget._edit_mode self)).
Proof.
  intros Hrect Hy Hx. unfold paint, bind, lift_outcome.
  destruct (lookup_lt_is_Some_2 (Image.to_array img) (Z.to_nat y_pos)) as [row Hrow].
  { unfold Image.get_height in Hy. lia. }
  pose proof (rectangular_row img _ row Hrect Hrow) as Hlen.
  rewrite (py_setitem2_inside _ y_pos x_pos 1 row) by (done || lia).
  unfold ImageWidget.set__image, modify.
  rewrite (_draw_image_rectangular _
             (PixelBuffer_set img (Z.to_nat y_pos) (Z.to_nat x_pos) 1)).
  - reflexivity.
  - reflexivity.
  - by apply rectangular_set.
Qed.

(** The image after any one pointer event: the same, or one cell set to 1. *)
Lemma _draw_pixel_image (self : ImageWidget.t) (event : QMouseEvent) :
  ImageWidget._image (snd (ImageWidget._draw_pixel event self))
  = ImageWidget._image self
  \/ exists img k c,
       ImageWidget._image self = Some img
       /\ ImageWidget._image (snd (ImageWidget._draw_pixel event self))
          = Some (PixelBuffer_set img k c 1).
Proof.
  destruct (ImageWidget._image self) as [img|] eqn:Himg;
    [destruct (ImageWidget._edit_mode self) eqn:Hedit|].
  - rewrite (_draw_pixel_editing self img event Himg Hedit).
    destruct (cell_of_event img event) as [[y_pos x_pos]|e]; [|by left].
    destruct ((x_pos >=? Image.get_width img) || (y_pos >=? Image.get_height img));
      [by left|].
    unfold paint, bind, lift_outcome.
    destruct (py_setitem2 (Image.to_array img) y_pos x_pos 1) as [a'|e] eqn:Hset;
      [|by left].
    destruct (py_setitem2_Returned _ _ _ _ _ Hset) as (k & c & ->).
    right. exists img, k, c. split; [done|].
    unfold ImageWidget.set__image, modify.
    by rewrite (proj1 (_draw_image_keeps _)).
  - left. unfold ImageWidget._draw_pixel, bind, get. rewrite Himg, Hedit.
    by rewrite orb_true_r.
  - left. unfold ImageWidget._draw_pixel, bind, get. by rewrite Himg.
Qed.

Lemma _draw_pixel_edit_mode (self : ImageWidget.t) (event : QMouseEvent) :
  ImageWidget._edit_mode (snd (ImageWidget._draw_pixel event self))
  = ImageWidget._edit_mode self.
Proof.
  destruct (ImageWidget._image self) as [img|] eqn:Himg;
    [destruct (ImageWidget._edit_mode self) eqn:Hedit|].
  - rewrite (_draw_pixel_editing self img event Himg Hedit).
    destruct (cell_of_event img event) as [[y_pos x_pos]|e]; [|done].
    destruct ((x_pos >=? Image.get_width img) || (y_pos >=? Image.get_height img));
      [done|].
    unfold paint, bind, lift_outcome.
    destruct (py_setitem2 (Image.to_array img) y_pos x_pos 1) as [a'|e]; [|done].
    unfold ImageWidget.set__image, modify.
    by rewrite (proj2 (_draw_image_keeps _)).
  - unfold ImageWidget._draw_pixel, bind, get. rewrite Himg, Hedit.
    by rewrite orb_true_r.
  - unfold ImageWidget._draw_pixel, bind, get. by rewrite Himg.
Qed.

Lemma _draw_pixel_pixel (self : ImageWidget.t) (event : QMouseEvent)
    (r c : nat) (v : Z) :
  pixel_of self r c = Some v ->
  pixel_of (snd (ImageWidget._draw_pixel event self)) r c = Some v
  \/ pixel_of (snd (ImageWidget._draw_pixel event self)) r c = Some 1.
Proof.
  intros Hv. unfold pixel_of in *.
  destruct (_draw_pixel_image self event) as [->|(img & k & j & Himg & ->)];
    [by left|].
  rewrite Himg in Hv. cbn in Hv |- *. rewrite pixel_set, Hv.
  case_decide; [by right | by left].
Qed.

Lemma pointer_events_pixel (events : list QMouseEvent) (self : ImageWidget.t)
    (r c : nat) (v : Z) :
  pixel_of self r c = Some v ->
  pixel_of (pointer_events events self) r c = Some v
  \/ pixel_of (pointer_events events self) r c = Some 1.
Proof.
  revert self v. induction events as [|event events IH]; intros self v Hv;
    [by left|].
  unfold pointer_events in *. cbn [foldl].
  destruct (_draw_pixel_pixel self event r c v Hv) as [H|H].
  - by apply IH.
  - right. by destruct (IH _ _ H).
Qed.

(** ** Claims about the pointer-event handler *)

(** C1 (the code departs from it).  The claim: a pointer event whose
    translated coordinate lies outside the image, negative ones included,
    changes nothing.  The handler only tests [x_pos >= width] and
    [y_pos >= height].  On a blank 2 by 2 canvas in edit mode a click at
    display position (5, 5), inside the 9-pixel border, translates to
    (-1, -1); the subscripts wrap around and the bottom-right pixel (1, 1)
    is painted. *)
Theorem C1_border_click_paints_far_corner :
  cell_of_event (Image.new [[0; 0]; [0; 0]] Image.Format_BW) {| pos_x := 5; pos_y := 5 |}
  = Returned (-1, -1)
  /\ ImageWidget._draw_pixel {| pos_x := 5; pos_y := 5 |} canvas_2x2
     = (Returned tt, showing (Image.new [[0; 0]; [0; 1]] Image.Format_BW) true)
  /\ pixel_of canvas_2x2 1 1 = Some 0
  /\ pixel_of (snd (ImageWidget._draw_pixel {| pos_x := 5; pos_y := 5 |} canvas_2x2)) 1 1
     = Some 1.
Proof. by vm_compute. Qed.

(** Further left than the image is wide, the subscript is out of range and
    the handler ends in an [IndexError]; the image stays. *)
Lemma far_left_click_raises :
  cell_of_event (Image.new [[0; 0]; [0; 0]] Image.Format_BW) {| pos_x := -500; pos_y := 160 |}
  = Returned (1, -4)
  /\ ImageWidget._draw_pixel {| pos_x := -500; pos_y := 160 |} canvas_2x2
     = (Raised IndexError, canvas_2x2).
Proof. by vm_compute. Qed.

(** The half of the bounds test that the handler does make: at or beyond
    the width or the height, nothing happens. *)
Lemma _draw_pixel_beyond (self : ImageWidget.t) (img : Image.t)
    (event : QMouseEvent) (row col : Z) :
  ImageWidget._image self = Some img -> ImageWidget._edit_mode self = true ->
  cell_of_event img event = Returned (row, col) ->
  Image.get_width img <= col \/ Image.get_height img <= row ->
  ImageWidget._draw_pixel event self = (Returned tt, self).
Proof.
  intros Himg Hedit Hcell Hout.
  rewrite (_draw_pixel_editing self img event Himg Hedit), Hcell.
  destruct ((col >=? Image.get_width img) || (row >=? Image.get_height img)) eqn:E;
    [done | lia].
Qed.

(** C2.  With an image loaded and edit mode on, the handler acts on the
    cell the spec's formula gives: pixel size 300 divided by the image
    height, truncated, then (x - 9) and (y - 9) integer-divided by the
    pixel size, with no rounding correction.  Where the formula divides by
    zero (height 0, or height above 300 so that the pixel size is 0) the
    handler raises [ZeroDivisionError] and changes nothing. *)
Theorem C2_coordinate_translation (self : ImageWidget.t) (img : Image.t)
    (event : QMouseEvent) :
  ImageWidget._image self = Some img -> ImageWidget._edit_mode self = true ->
  ImageWidget._draw_pixel event self
  = match handle_pointer_event_cell 300 9 (Image.get_height img)
            (pos_x event) (pos_y event) with
    | Some (row, col) =>
        if (col >=? Image.get_width img) || (row >=? Image.get_height img)
        then (Returned tt, self)
        else paint img row col self
    | None => (Raised ZeroDivisionError, self)
    end.
Proof.
  intros Himg Hedit. rewrite (_draw_pixel_editing self img event Himg Hedit).
  unfold cell_of_event, handle_pointer_event_cell, py_floordiv.
  assert (0 <= Image.get_height img) as Hh by (unfold Image.get_height; lia).
  destruct (Image.get_height img =? 0) eqn:Hz; [done|].
  rewrite Z.quot_div_nonneg by lia.
  by destruct (300 / Image.get_height img =? 0).
Qed.

Lemma C2_coordinate_translation_witness :
  ImageWidget._draw_pixel {| pos_x := 209; pos_y := 109 |} canvas_4x3
  = match handle_pointer_event_cell 300 9 3 209 109 with
    | Some (row, col) =>
        if (col >=? 4) || (row >=? 3)
        then (Returned tt, canvas_4x3)
        else paint (Image.new [[0; 0; 0; 0]; [0; 0; 0; 0]; [0; 0; 0; 0]] Image.Format_BW)
               row col canvas_4x3
    | None => (Raised ZeroDivisionError, canvas_4x3)
    end.
Proof.
  apply (C2_coordinate_translation canvas_4x3
           (Image.new [[0; 0; 0; 0]; [0; 0; 0; 0]; [0; 0; 0; 0]] Image.Format_BW)
           {| pos_x := 209; pos_y := 109 |}); reflexivity.
Defined.

(** C4.  With no image loaded, or with edit mode off, the handler returns
    normally and leaves the widget, its image included, as it was. *)
Theorem C4_edit_gating (self : ImageWidget.t) (event : QMouseEvent) :
  ImageWidget._image self = None \/ ImageWidget._edit_mode self = false ->
  ImageWidget._draw_pixel event self = (Returned tt, self).
Proof.
  intros [Hnone|Hview]; unfold ImageWidget._draw_pixel, bind, get.
  - by rewrite Hnone.
  - rewrite Hview. by rewrite orb_true_r.
Qed.

Lemma C4_edit_gating_witness :
  ImageWidget._draw_pixel {| pos_x := 209; pos_y := 109 |} ImageWidget.__init__
  = (Returned tt, ImageWidget.__init__).
Proof.
  apply (C4_edit_gating ImageWidget.__init__ {| pos_x := 209; pos_y := 109 |}).
  left. reflexivity.
Defined.

(** The handler at an event that denotes a cell inside the image. *)
Lemma _draw_pixel_inside (self : ImageWidget.t) (img : Image.t)
    (event : QMouseEvent) (row col : Z) :
  ImageWidget._image self = Some img -> ImageWidget._edit_mode self = true ->
  Image.rectangular img ->
  cell_of_event img event = Returned (row, col) ->
  0 <= row < Image.get_height img -> 0 <= col < Image.get_width img ->
  ImageWidget._draw_pixel event self
  = (Returned tt,
     showing (PixelBuffer_set img (Z.to_nat row) (Z.to_nat col) 1) true).
Proof.
  intros Himg Hedit Hrect Hcell Hrow Hcol.
  rewrite (_draw_pixel_editing self img event Himg Hedit), Hcell.
  destruct ((col >=? Image.get_width img) || (row >=? Image.get_height img)) eqn:E;
    [lia|].
  rewrite (paint_inside self img row col Hrect Hrow Hcol). by rewrite Hedit.
Qed.

Lemma cell_of_event_set (img : Image.t) (k c : nat) (v : Z) (event : QMouseEvent) :
  cell_of_event (PixelBuffer_set img k c v) event = cell_of_event img event.
Proof. unfold cell_of_event. by rewrite get_height_set. Qed.

Lemma PixelBuffer_set_twice (img : Image.t) (k c : nat) (v : Z) :
  PixelBuffer_set (PixelBuffer_set img k c v) k c v = PixelBuffer_set img k c v.
Proof.
  unfold PixelBuffer_set. cbn. f_equal. apply list_eq. intros i.
  destruct (decide (k = i)) as [->|Hne].
  - rewrite !list_lookup_alter_eq.
    destruct (Image.to_array img !! i); cbn; [|done].
    by rewrite list_insert_insert_eq.
  - by rewrite !list_lookup_alter_ne.
Qed.

(** C3.  Paint is idempotent: with a loaded image (rows of equal length,
    whatever its format, Bitonal in particular) in edit mode and an event
    that denotes the in-bounds cell (row, col), the handler succeeds, and
    handling the same event again succeeds and leaves the widget, pixel
    grid included, exactly as the first paint left it. *)
Theorem C3_paint_idempotent (self : ImageWidget.t) (img : Image.t)
    (event : QMouseEvent) (row col : Z) :
  ImageWidget._image self = Some img -> ImageWidget._edit_mode self = true ->
  Image.rectangular img ->
  cell_of_event img event = Returned (row, col) ->
  0 <= row < Image.get_height img -> 0 <= col < Image.get_width img ->
  exists once,
    ImageWidget._draw_pixel event self = (Returned tt, once)
    /\ ImageWidget._draw_pixel event once = (Returned tt, once).
Proof.
  intros Himg Hedit Hrect Hcell Hrow Hcol.
  exists (showing (PixelBuffer_set img (Z.to_nat row) (Z.to_nat col) 1) true).
  split; [by apply _draw_pixel_inside|].
  rewrite (_draw_pixel_inside _
             (PixelBuffer_set img (Z.to_nat row) (Z.to_nat col) 1) event row col).
  - by rewrite PixelBuffer_set_twice.
  - reflexivity.
  - reflexivity.
  - by apply rectangular_set.
  - by rewrite cell_of_event_set.
  - by rewrite get_height_set.
  - by rewrite get_width_set.
Qed.

Lemma C3_paint_idempotent_witness :
  exists once,
    ImageWidget._draw_pixel {| pos_x := 209; pos_y := 109 |} canvas_4x3 = (Returned tt, once)
    /\ ImageWidget._draw_pixel {| pos_x := 209; pos_y := 109 |} once = (Returned tt, once).
Proof.
  apply (C3_paint_idempotent canvas_4x3
           (Image.new [[0; 0; 0; 0]; [0; 0; 0; 0]; [0; 0; 0; 0]] Image.Format_BW)
           {| pos_x := 209; pos_y := 109 |} 1 2).
  - reflexivity.
  - reflexivity.
  - by repeat constructor.
  - reflexivity.
  - by vm_compute.
  - by vm_compute.
Defined.

Lemma pixel_inside (img : Image.t) (r c : nat) :
  Image.rectangular img ->
  Z.of_nat r < Image.get_height img -> Z.of_nat c < Image.get_width img ->
  is_Some (Image.pixel img r c).
Proof.
  intros Hrect Hr Hc. unfold Image.pixel.
  destruct (lookup_lt_is_Some_2 (Image.to_array img) r) as [row Hrow].
  { unfold Image.get_height in Hr. lia. }
  rewrite Hrow. cbn. apply lookup_lt_is_Some_2.
  pose proof (rectangular_row img r row Hrect Hrow). lia.
Qed.

(** C5.  With a loaded image (rows of equal length, whatever its format,
    Bitonal in particular) in edit mode, an event that denotes the
    in-bounds cell (row, col) makes the widget's image the spec's
    [set(row, col, 1)] of the old one, so that cell holds 1.  And there is
    no erase: after any sequence of pointer events every pixel holds what
    it held before or holds 1, so none goes back to 0. *)
Theorem C5_paint_sets_foreground :
  (forall (self : ImageWidget.t) (img : Image.t) (event : QMouseEvent) (row col : Z),
      ImageWidget._image self = Some img -> ImageWidget._edit_mode self = true ->
      Image.rectangular img ->
      cell_of_event img event = Returned (row, col) ->
      0 <= row < Image.get_height img -> 0 <= col < Image.get_width img ->
      exists self',
        ImageWidget._draw_pixel event self = (Returned tt, self')
        /\ ImageWidget._image self'
           = Some (PixelBuffer_set img (Z.to_nat row) (Z.to_nat col) 1)
        /\ pixel_of self' (Z.to_nat row) (Z.to_nat col) = Some 1)
  /\ (forall (events : list QMouseEvent) (self : ImageWidget.t) (r c : nat) (v : Z),
        pixel_of self r c = Some v ->
        pixel_of (pointer_events events self) r c = Some v
        \/ pixel_of (pointer_events events self) r c = Some 1).
Proof.
  split; [|exact pointer_events_pixel].
  intros self img event row col Himg Hedit Hrect Hcell Hrow Hcol.
  eexists. split; [by apply _draw_pixel_inside|]. split; [reflexivity|].
  unfold pixel_of, showing. cbn. rewrite pixel_set, decide_True by done.
  destruct (pixel_inside img (Z.to_nat row) (Z.to_nat col)) as [p ->];
    [done | lia | lia | done].
Qed.

Lemma C5_paint_sets_foreground_witness :
  exists self',
    ImageWidget._draw_pixel {| pos_x := 209; pos_y := 109 |} canvas_4x3 = (Returned tt, self')
    /\ ImageWidget._image self'
       = Some (PixelBuffer_set
                 (Image.new [[0; 0; 0; 0]; [0; 0; 0; 0]; [0; 0; 0; 0]] Image.Format_BW)
                 (Z.to_nat 1) (Z.to_nat 2) 1)
    /\ pixel_of self' (Z.to_nat 1) (Z.to_nat 2) = Some 1.
Proof.
  apply (proj1 C5_paint_sets_foreground canvas_4x3
           (Image.new [[0; 0; 0; 0]; [0; 0; 0; 0]; [0; 0; 0; 0]] Image.Format_BW)
           {| pos_x := 209; pos_y := 109 |} 1 2).
  - reflexivity.
  - reflexivity.
  - by repeat constructor.
  - reflexivity.
  - by vm_compute.
  - by vm_compute.
Defined.

(** C10.  The frame of a paint: with a loaded image (rows of equal length)
    in edit mode and an event that denotes the in-bounds cell (row, col),
    the handler succeeds and the new image has the width, the height and
    the format of the old one, and every pixel other than (row, col) is
    what it was; the edit mode stays on. *)
Theorem C10_paint_frame (self : ImageWidget.t) (img : Image.t)
    (event : QMouseEvent) (row col : Z) :
  ImageWidget._image self = Some img -> ImageWidget._edit_mode self = true ->
  Image.rectangular img ->
  cell_of_event img event = Returned (row, col) ->
  0 <= row < Image.get_height img -> 0 <= col < Image.get_width img ->
  exists self' img',
    ImageWidget._draw_pixel event self = (Returned tt, self')
    /\ ImageWidget._image self' = Some img'
    /\ ImageWidget._edit_mode self' = true
    /\ Image.get_width img' = Image.get_width img
    /\ Image.get_height img' = Image.get_height img
    /\ Image.get_image_format img' = Image.get_image_format img
    /\ forall r c : nat,
         (r, c) <> (Z.to_nat row, Z.to_nat col) ->
         Image.pixel img' r c = Image.pixel img r c.
Proof.
  intros Himg Hedit Hrect Hcell Hrow Hcol.
  exists (showing (PixelBuffer_set img (Z.to_nat row) (Z.to_nat col) 1) true),
         (PixelBuffer_set img (Z.to_nat row) (Z.to_nat col) 1).
  split; [by apply _draw_pixel_inside|].
  split; [reflexivity|]. split; [reflexivity|].
  split; [apply get_width_set|]. split; [apply get_height_set|].
  split; [reflexivity|].
  intros r c Hother. rewrite pixel_set. case_decide as Hsame; [|done].
  destruct Hsame as [<- <-]. done.
Qed.

Lemma C10_paint_frame_witness :
  exists self' img',
    ImageWidget._draw_pixel {| pos_x := 209; pos_y := 109 |} canvas_4x3 = (Returned tt, self')
    /\ ImageWidget._image self' = Some img'
    /\ ImageWidget._edit_mode self' = true
    /\ Image.get_width img' = 4
    /\ Image.get_height img' = 3
    /\ Image.get_image_format img' = Image.Format_BW
    /\ forall r c : nat,
         (r, c) <> (Z.to_nat 1, Z.to_nat 2) ->
         Image.pixel img' r c
         = Image.pixel
             (Image.new [[0; 0; 0; 0]; [0; 0; 0; 0]; [0; 0; 0; 0]] Image.Format_BW) r c.
Proof.
  apply (C10_paint_frame canvas_4x3
           (Image.new [[0; 0; 0; 0]; [0; 0; 0; 0]; [0; 0; 0; 0]] Image.Format_BW)
           {| pos_x := 209; pos_y := 109 |} 1 2).
  - reflexivity.
  - reflexivity.
  - by repeat constructor.
  - reflexivity.
  - by vm_compute.
  - by vm_compute.
Defined.

(** ** The new-image dialog *)

Lemma dialog_in_range_init : dialog_in_range NewFileDialog.__init__.
Proof. by vm_compute. Qed.

Lemma dialog_in_range_input (u : UserInput) (d : NewFileDialog.t) :
  dialog_in_range d -> dialog_in_range (NewFileDialog.input u d).
Proof.
  intros (Hw1 & Hw2 & Hw & Hh1 & Hh2 & Hh & Hitems & Hidx).
  unfold dialog_in_range.
  destruct u as [v|v|i]; cbn [NewFileDialog.input NewFileDialog._width_spinbox
    NewFileDialog._height_spinbox NewFileDialog._image_format_box
    QSpinBox.setValue QSpinBox.minimum QSpinBox.maximum QSpinBox.value].
  - rewrite Hw1, Hw2. unfold QSpinBox.bound. repeat split; try done; lia.
  - rewrite Hh1, Hh2. unfold QSpinBox.bound. repeat split; try done; lia.
  - unfold QComboBox.activate. rewrite Hitems. change (Z.of_nat 1) with 1.
    destruct ((0 <=? i) && (i <? 1)) eqn:E;
      cbn [QComboBox.items QComboBox.currentIndex]; repeat split; try done; lia.
Qed.

Lemma dialog_in_range_exec (user : list UserInput) (closed_with : DialogCode) :
  fst (NewFileDialog.exec_ user closed_with NewFileDialog.__init__) = Returned closed_with
  /\ dialog_in_range (snd (NewFileDialog.exec_ user closed_with NewFileDialog.__init__)).
Proof.
  unfold NewFileDialog.exec_, bind, modify, ret. cbn [fst snd]. split; [done|].
  generalize dialog_in_range_init. generalize NewFileDialog.__init__.
  induction user as [|u user IH]; intros d Hd; [done|].
  cbn [foldl]. apply IH. by apply dialog_in_range_input.
Qed.

(** The list comprehension of [new_file_action] is a grid of zeros. *)
Lemma comprehension_replicate {A} (n : Z) (c : A) :
  (fun _ => c) <$> py_range n = replicate (Z.to_nat n) c.
Proof.
  unfold py_range. rewrite (const_fmap (fun _ : Z => c) (seqZ 0 n) c) by done.
  by rewrite length_seqZ.
Qed.

Lemma new_image_of_rectangular (diag : NewFileDialog.t) :
  Image.rectangular (new_image_of diag).
Proof.
  unfold Image.rectangular, Image.get_width, new_image_of. cbn.
  destruct (NewFileDialog.get_image_format diag =? Image.Format_BW); [|constructor].
  destruct (Z.to_nat (NewFileDialog.get_image_height diag)) as [|n]; [constructor|].
  by apply Forall_replicate.
Qed.

Lemma new_file_action_accepted (user : list UserInput) (window : MainWindow.t) :
  MainWindow.new_file_action user Accepted window
  = (Returned tt,
     {| MainWindow._image_widget := showing (new_image_of (dialog_after user Accepted)) true;
        MainWindow.shown := MainWindow.shown window;
        MainWindow.written := MainWindow.written window |}).
Proof.
  unfold MainWindow.new_file_action, dialog_after.
  pose proof (proj1 (dialog_in_range_exec user Accepted)) as Hcode.
  destruct (NewFileDialog.exec_ user Accepted NewFileDialog.__init__) as [code diag].
  cbn in Hcode. subst code. cbn [snd].
  rewrite !comprehension_replicate.
  unfold bind, MainWindow.on_image_widget. cbn [MainWindow._image_widget].
  rewrite (set_image_rectangular _ (new_image_of diag))
    by apply new_image_of_rectangular.
  reflexivity.
Qed.

Lemma new_file_action_rejected (user : list UserInput) (window : MainWindow.t) :
  MainWindow.new_file_action user Rejected window = (Returned tt, window).
Proof.
  unfold MainWindow.new_file_action.
  pose proof (proj1 (dialog_in_range_exec user Rejected)) as Hcode.
  destruct (NewFileDialog.exec_ user Rejected NewFileDialog.__init__) as [code diag].
  cbn in Hcode. by subst code.
Qed.

(** C9.  Every width and every height that can be read from the dialog,
    whatever the user entered and however the dialog was closed, lies in
    1..=65535; and the image that an accepted dialog makes the window build
    has a width and a height in that range. *)
Theorem C9_dialog_dimension_range (user : list UserInput) (closed_with : DialogCode)
    (window : MainWindow.t) :
  1 <= NewFileDialog.get_image_width (dialog_after user closed_with) <= 65535
  /\ 1 <= NewFileDialog.get_image_height (dialog_after user closed_with) <= 65535
  /\ exists img,
       ImageWidget._image
         (MainWindow._image_widget (snd (MainWindow.new_file_action user Accepted window)))
       = Some img
       /\ 1 <= Image.get_width img <= 65535
       /\ 1 <= Image.get_height img <= 65535.
Proof.
  destruct (proj2 (dialog_in_range_exec user closed_with))
    as (_ & _ & Hw & _ & _ & Hh & _ & _).
  split; [exact Hw|]. split; [exact Hh|].
  rewrite new_file_action_accepted. eexists. split; [reflexivity|].
  destruct (proj2 (dialog_in_range_exec user Accepted))
    as (_ & _ & Hw' & _ & _ & Hh' & _ & Hfmt).
  fold (dialog_after user Accepted) in Hw', Hh', Hfmt.
  unfold new_image_of, NewFileDialog.get_image_format, Image.get_width, Image.get_height.
  rewrite Hfmt. cbn [Z.eqb Image.Format_BW Image.to_array].
  unfold NewFileDialog.get_image_width, NewFileDialog.get_image_height.
  rewrite length_replicate.
  destruct (Z.to_nat (QSpinBox.value (NewFileDialog._height_spinbox (dialog_after user Accepted))))
    as [|n] eqn:Hn; [lia|].
  cbn [replicate hd]. rewrite length_replicate. lia.
Qed.

(** C7.  An accepted new-image request whose dialog reports the width [w]
    and the height [h], each in 1..=65535, and the black-and-white format
    makes the window show a fresh image in edit mode whose grid has exactly
    [h] rows of exactly [w] values each, every one of them 0. *)
Theorem C7_blank_canvas (user : list UserInput) (window : MainWindow.t) (w h : Z) :
  NewFileDialog.get_image_width (dialog_after user Accepted) = w ->
  NewFileDialog.get_image_height (dialog_after user Accepted) = h ->
  1 <= w <= 65535 -> 1 <= h <= 65535 ->
  NewFileDialog.get_image_format (dialog_after user Accepted) = Image.Format_BW ->
  exists img,
    MainWindow.new_file_action user Accepted window
    = (Returned tt,
       {| MainWindow._image_widget := showing img true;
          MainWindow.shown := MainWindow.shown window;
          MainWindow.written := MainWindow.written window |})
    /\ Image.get_image_format img = Image.Format_BW
    /\ Image.get_height img = h
    /\ Image.get_width img = w
    /\ length (Image.to_array img) = Z.to_nat h
    /\ Forall (fun row => length row = Z.to_nat w /\ Forall (fun p => p = 0) row)
         (Image.to_array img).
Proof.
  intros Hw Hh Hwr Hhr Hfmt.
  exists (new_image_of (dialog_after user Accepted)).
  split; [apply new_file_action_accepted|].
  unfold new_image_of, Image.get_height, Image.get_width.
  rewrite Hfmt, Hw, Hh, Z.eqb_refl. cbn [Image.get_image_format Image.to_array].
  rewrite length_replicate.
  split; [done|]. split; [lia|]. split; [|split; [done|]].
  - destruct (Z.to_nat h) as [|n] eqn:Hn; [lia|].
    cbn [replicate hd]. rewrite length_replicate. lia.
  - apply Forall_replicate. split; [apply length_replicate|].
    by apply Forall_replicate.
Qed.

Lemma C7_blank_canvas_witness :
  exists img,
    MainWindow.new_file_action [EnterWidth 4; EnterHeight 3] Accepted MainWindow.__init__
    = (Returned tt,
       {| MainWindow._image_widget := showing img true;
          MainWindow.shown := MainWindow.shown MainWindow.__init__;
          MainWindow.written := MainWindow.written MainWindow.__init__ |})
    /\ Image.get_image_format img = Image.Format_BW
    /\ Image.get_height img = 3
    /\ Image.get_width img = 4
    /\ length (Image.to_array img) = Z.to_nat 3
    /\ Forall (fun row => length row = Z.to_nat 4 /\ Forall (fun p => p = 0) row)
         (Image.to_array img).
Proof.
  apply (C7_blank_canvas [EnterWidth 4; EnterHeight 3] MainWindow.__init__ 4 3).
  - reflexivity.
  - reflexivity.
  - lia.
  - lia.
  - reflexivity.
Defined.

(** ** The File menu actions and the event loop *)

Lemma set_image_keeps (self : ImageWidget.t) (image : Image.t) :
  ImageWidget._image (snd (ImageWidget.set_image image self)) = Some image
  /\ ImageWidget._edit_mode (snd (ImageWidget.set_image image self))
     = ImageWidget._edit_mode self.
Proof.
  unfold ImageWidget.set_image, bind, ImageWidget.set__image, modify.
  split.
  - by rewrite (proj1 (_draw_image_keeps _)).
  - by rewrite (proj2 (_draw_image_keeps _)).
Qed.

(** The widget after [open_file_action]: the decoded image if there is
    one, the old image otherwise; the edit mode as before. *)
Lemma open_file_action_widget (filepath : string)
    (from_file : string -> outcome Image.t) (window : MainWindow.t) :
  let widget' :=
    MainWindow._image_widget (snd (MainWindow.open_file_action filepath from_file window)) in
  ImageWidget._edit_mode widget'
  = ImageWidget._edit_mode (MainWindow._image_widget window)
  /\ ImageWidget._image widget'
     = if bool_decide (filepath = EmptyString)
       then ImageWidget._image (MainWindow._image_widget window)
       else match from_file filepath with
            | Returned image => Some image
            | Raised _ => ImageWidget._image (MainWindow._image_widget window)
            end.
Proof.
  cbv zeta. unfold MainWindow.open_file_action.
  destruct (bool_decide (filepath = EmptyString)); [done|].
  unfold try_except_ValueError, bind, lift_outcome.
  destruct (from_file filepath) as [image|e].
  - unfold MainWindow.on_image_widget.
    pose proof (set_image_keeps (MainWindow._image_widget window) image) as [Hi He].
    destruct (ImageWidget.set_image image (MainWindow._image_widget window))
      as [[[]|e] widget']; cbn in Hi, He |- *; [done|].
    by destruct e.
  - by destruct e.
Qed.

(** C6.  When decoding the chosen file fails with a [ValueError], the
    action returns normally, shows a critical message box carrying the
    error's text, and leaves the widget, the previously loaded image
    included, untouched.  And whenever the widget's image differs after the
    action, a file was chosen and decoding it succeeded with that image. *)
Theorem C6_load_atomicity :
  (forall (window : MainWindow.t) (filepath : string)
          (from_file : string -> outcome Image.t) (msg : string),
      filepath <> EmptyString ->
      from_file filepath = Raised (ValueError msg) ->
      MainWindow.open_file_action filepath from_file window
      = (Returned tt,
         {| MainWindow._image_widget := MainWindow._image_widget window;
            MainWindow.shown :=
              {| icon := Critical; text := "Error"; informativeText := msg;
                 windowTitle := "Error loading file" |} :: MainWindow.shown window;
            MainWindow.written := MainWindow.written window |}))
  /\ (forall (window : MainWindow.t) (filepath : string)
             (from_file : string -> outcome Image.t),
        ImageWidget._image
          (MainWindow._image_widget
             (snd (MainWindow.open_file_action filepath from_file window)))
        <> ImageWidget._image (MainWindow._image_widget window) ->
        exists image,
          filepath <> EmptyString
          /\ from_file filepath = Returned image
          /\ ImageWidget._image
               (MainWindow._image_widget
                  (snd (MainWindow.open_file_action filepath from_file window)))
             = Some image).
Proof.
  split.
  - intros window filepath from_file msg Hpath Hdecode.
    unfold MainWindow.open_file_action.
    rewrite bool_decide_eq_false_2 by done.
    unfold try_except_ValueError, bind, lift_outcome. by rewrite Hdecode.
  - intros window filepath from_file Hchanged.
    destruct (open_file_action_widget filepath from_file window) as [_ Himage].
    rewrite Himage in Hchanged |- *.
    destruct (bool_decide (filepath = EmptyString)) eqn:Hpath; [done|].
    apply bool_decide_eq_false in Hpath.
    destruct (from_file filepath) as [image|e]; [|done].
    by exists image.
Qed.

Lemma C6_load_atomicity_witness :
  MainWindow.open_file_action "broken.limg"
    (fun _ => Raised (ValueError "bad header")) MainWindow.__init__
  = (Returned tt,
     {| MainWindow._image_widget := MainWindow._image_widget MainWindow.__init__;
        MainWindow.shown :=
          {| icon := Critical; text := "Error"; informativeText := "bad header";
             windowTitle := "Error loading file" |} :: MainWindow.shown MainWindow.__init__;
        MainWindow.written := MainWindow.written MainWindow.__init__ |}).
Proof.
  apply (proj1 C6_load_atomicity MainWindow.__init__ "broken.limg"
           (fun _ => Raised (ValueError "bad header")) "bad header").
  - discriminate.
  - reflexivity.
Defined.

Lemma save_file_action_widget (filepath : string)
    (write_to_file : Image.t -> string -> outcome unit) (window : MainWindow.t) :
  MainWindow._image_widget (snd (MainWindow.save_file_action filepath write_to_file window))
  = MainWindow._image_widget window.
Proof.
  unfold MainWindow.save_file_action, bind, MainWindow.on_image_widget,
    ImageWidget.get_image, ImageWidget.deref__image, get, ret, lift_outcome.
  cbn. destruct window as [widget boxes files]. cbn.
  destruct (ImageWidget._image widget) as [image|] eqn:Himage; cbn; [|done].
  destruct (bool_decide (filepath = EmptyString)); cbn; [done|].
  rewrite Himage. by destruct (write_to_file image filepath) as [[]|e].
Qed.

(** The edit mode after one event. *)
Lemma dispatch_edit_mode (ev : ShellEvent) (window : MainWindow.t) :
  edit_mode_of (snd (dispatch ev window))
  = match ev with
    | NewFile _ Accepted => true
    | _ => edit_mode_of window
    end.
Proof.
  unfold edit_mode_of.
  destruct ev as [user [|]|filepath from_file|filepath write_to_file|event|event];
    cbn [dispatch].
  - by rewrite new_file_action_rejected.
  - by rewrite new_file_action_accepted.
  - apply (open_file_action_widget filepath from_file window).
  - by rewrite save_file_action_widget.
  - unfold MainWindow.on_image_widget, ImageWidget.mouseMoveEvent.
    pose proof (_draw_pixel_edit_mode (MainWindow._image_widget window) event) as H.
    by destruct (ImageWidget._draw_pixel event (MainWindow._image_widget window)).
  - unfold MainWindow.on_image_widget, ImageWidget.mousePressEvent.
    pose proof (_draw_pixel_edit_mode (MainWindow._image_widget window) event) as H.
    by destruct (ImageWidget._draw_pixel event (MainWindow._image_widget window)).
Qed.

(** C8.  Once edit mode is on it stays on through every sequence of shell
    events (new file, open file, save file, pointer events); and one event
    turns it on from off exactly when it is an accepted new-image dialog. *)
Theorem C8_edit_mode_never_disabled :
  (forall (events : list ShellEvent) (window : MainWindow.t),
      edit_mode_of window = true -> edit_mode_of (exec_ events window) = true)
  /\ (forall (ev : ShellEvent) (window : MainWindow.t),
        edit_mode_of window = false ->
        (edit_mode_of (snd (dispatch ev window)) = true
         <-> exists user, ev = NewFile user Accepted)).
Proof.
  split.
  - intros events. induction events as [|ev events IH]; intros window Hon; [done|].
    unfold exec_ in *. cbn [foldl]. apply IH.
    rewrite dispatch_edit_mode. by destruct ev as [? [|]| | | |].
  - intros ev window Hoff. rewrite dispatch_edit_mode. split.
    + destruct ev as [user [|]| | | |]; rewrite ?Hoff; try discriminate.
      intros _. by exists user.
    + by intros [user ->].
Qed.

Lemma C8_edit_mode_never_disabled_witness :
  edit_mode_of
    (exec_ [OpenFile "broken.limg" (fun _ => Raised (ValueError "bad header"));
            MousePress {| pos_x := 5; pos_y := 5 |};
            NewFile [EnterWidth 2; EnterHeight 2] Rejected;
            SaveFile "out.limg" (fun _ _ => Returned tt)]
       (snd (dispatch (NewFile [EnterWidth 2; EnterHeight 2] Accepted) MainWindow.__init__)))
  = true.
Proof.
  apply (proj1 C8_edit_mode_never_disabled). reflexivity.
Defined.


(** ** Rows of equal length along every run *)

Lemma dispatch_rectangular (ev : ShellEvent) (window : MainWindow.t) :
  decodes_rectangular ev -> holds_rectangular window ->
  holds_rectangular (snd (dispatch ev window)).
Proof.
  intros Hev Hwin img. unfold holds_rectangular in Hwin.
  destruct ev as [user [|]|filepath from_file|filepath write_to_file|event|event];
    cbn [dispatch].
  - rewrite new_file_action_rejected. apply Hwin.
  - rewrite new_file_action_accepted. cbn. intros [= <-].
    apply new_image_of_rectangular.
  - rewrite (proj2 (open_file_action_widget filepath from_file window)).
    destruct (bool_decide (filepath = EmptyString)); [apply Hwin|].
    destruct (from_file filepath) as [image|e] eqn:Hdecode; [|apply Hwin].
    intros [= <-]. by apply Hev.
  - rewrite save_file_action_widget. apply Hwin.
  - unfold MainWindow.on_image_widget, ImageWidget.mouseMoveEvent.
    pose proof (_draw_pixel_image (MainWindow._image_widget window) event) as H.
    destruct (ImageWidget._draw_pixel event (MainWindow._image_widget window))
      as [o widget']. cbn in H |- *.
    destruct H as [->|(img0 & k & c & Himg0 & ->)]; [apply Hwin|].
    intros [= <-]. apply rectangular_set. by apply Hwin.
  - unfold MainWindow.on_image_widget, ImageWidget.mousePressEvent.
    pose proof (_draw_pixel_image (MainWindow._image_widget window) event) as H.
    destruct (ImageWidget._draw_pixel event (MainWindow._image_widget window))
      as [o widget']. cbn in H |- *.
    destruct H as [->|(img0 & k & c & Himg0 & ->)]; [apply Hwin|].
    intros [= <-]. apply rectangular_set. by apply Hwin.
Qed.

(** From start-up on, whatever the events, the image the window holds has
    rows of equal length: the paint theorems apply all along. *)
Lemma exec_rectangular (events : list ShellEvent) :
  Forall decodes_rectangular events ->
  holds_rectangular (exec_ events MainWindow.__init__).
Proof.
  assert (holds_rectangular MainWindow.__init__) as Hinit by (intros img [=]).
  revert Hinit. generalize MainWindow.__init__.
  induction events as [|ev events IH]; intros window Hwin Hevs; [done|].
  inversion Hevs as [|? ? Hev Hevs']; subst.
  unfold exec_ in *. cbn [foldl]. apply IH; [|done].
  by apply dispatch_rectangular.
Qed.


(** * Further properties of the code *)

(** ** The pointer-event handler at and beyond the edges *)

Lemma py_index_valid (n : nat) (i : Z) :
  - Z.of_nat n <= i < Z.of_nat n ->
  py_index n i = Some (Z.to_nat (i mod Z.of_nat n)).
Proof.
  intros H. unfold py_index.
  destruct ((0 <=? i) && (i <? Z.of_nat n)) eqn:E1.
  - rewrite Z.mod_small by lia. done.
  - destruct ((- Z.of_nat n <=? i) && (i <? 0)) eqn:E2; [|lia].
    do 2 f_equal. apply (Z.mod_unique_pos i (Z.of_nat n) (-1)); lia.
Qed.

Lemma py_index_invalid (n : nat) (i : Z) :
  i < - Z.of_nat n -> py_index n i = None.
Proof.
  intros H. unfold py_index.
  destruct ((0 <=? i) && (i <? Z.of_nat n)) eqn:E1; [lia|].
  destruct ((- Z.of_nat n <=? i) && (i <? 0)) eqn:E2; [lia|done].
Qed.

Lemma py_setitem2_valid {A} (a : list (list A)) (i j : Z) (v : A) (row : list A) :
  - Z.of_nat (length a) <= i < Z.of_nat (length a) ->
  a !! Z.to_nat (i mod Z.of_nat (length a)) = Some row ->
  - Z.of_nat (length row) <= j < Z.of_nat (length row) ->
  py_setitem2 a i j v
  = Returned (alter (fun r => <[Z.to_nat (j mod Z.of_nat (length row)):=v]> r)
                (Z.to_nat (i mod Z.of_nat (length a))) a).
Proof.
  intros Hi Hrow Hj. unfold py_setitem2, py_setitem.
  rewrite (py_index_valid _ i Hi), Hrow, (py_index_valid _ j Hj).
  f_equal.
  by apply (insert_row_alter a _ row
              (fun r => <[Z.to_nat (j mod Z.of_nat (length row)):=v]> r)).
Qed.

(** The paint with any pair of subscripts Python accepts. *)
Lemma paint_valid (self : ImageWidget.t) (img : Image.t) (y_pos x_pos : Z) :
  Image.rectangular img ->
  - Image.get_height img <= y_pos < Image.get_height img ->
  - Image.get_width img <= x_pos < Image.get_width img ->
  paint img y_pos x_pos self
  = (Returned tt,
     showing (PixelBuffer_set img
                (Z.to_nat (y_pos mod Image.get_height img))
                (Z.to_nat (x_pos mod Image.get_width img)) 1)
       (ImageWidget._edit_mode self)).
Proof.
  intros Hrect Hy Hx. unfold paint, bind, lift_outcome.
  assert (0 < Image.get_height img) as Hh by lia.
  pose proof (Z.mod_pos_bound y_pos _ Hh) as Hmod.
  unfold Image.get_height in Hy, Hmod.
  destruct (lookup_lt_is_Some_2 (Image.to_array img)
              (Z.to_nat (y_pos mod Z.of_nat (length (Image.to_array img)))))
    as [row Hrow]; [lia|].
  pose proof (rectangular_row img _ row Hrect Hrow) as Hlen.
  rewrite (py_setitem2_valid _ y_pos x_pos 1 row) by (done || lia).
  unfold ImageWidget.set__image, modify. rewrite Hlen.
  fold (Image.get_height img).
  rewrite (_draw_image_rectangular _
             (PixelBuffer_set img (Z.to_nat (y_pos mod Image.get_height img))
                (Z.to_nat (x_pos mod Image.get_width img)) 1)).
  - reflexivity.
  - reflexivity.
  - by apply rectangular_set.
Qed.

(** The paint with a subscript Python rejects. *)
Lemma paint_invalid (self : ImageWidget.t) (img : Image.t) (y_pos x_pos : Z) :
  Image.rectangular img ->
  y_pos < Image.get_height img ->
  y_pos < - Image.get_height img \/ x_pos < - Image.get_width img ->
  paint img y_pos x_pos self = (Raised IndexError, self).
Proof.
  intros Hrect Hy Hout. unfold paint, bind, lift_outcome, py_setitem2, py_setitem.
  destruct (py_index (length (Image.to_array img)) y_pos) as [k|] eqn:Hk; [|done].
  destruct (Image.to_array img !! k) as [row|] eqn:Hrow; [|done].
  pose proof (rectangular_row img k row Hrect Hrow) as Hlen.
  destruct Hout as [Hrow_out|Hcol_out].
  - unfold Image.get_height in Hrow_out. by rewrite py_index_invalid in Hk.
  - by rewrite py_index_invalid by lia.
Qed.

(** X1.  With an image loaded and edit mode on, an event whose translated
    column is at or beyond the width, or whose translated row is at or
    beyond the height, changes nothing and raises nothing. *)
Theorem X1_beyond_far_edges_noop (self : ImageWidget.t) (img : Image.t)
    (event : QMouseEvent) (row col : Z) :
  ImageWidget._image self = Some img -> ImageWidget._edit_mode self = true ->
  cell_of_event img event = Returned (row, col) ->
  Image.get_width img <= col \/ Image.get_height img <= row ->
  ImageWidget._draw_pixel event self = (Returned tt, self).
Proof. apply _draw_pixel_beyond. Qed.

Lemma X1_beyond_far_edges_noop_witness :
  ImageWidget._draw_pixel {| pos_x := 409; pos_y := 109 |} canvas_4x3
  = (Returned tt, canvas_4x3).
Proof.
  apply (X1_beyond_far_edges_noop canvas_4x3
           (Image.new [[0; 0; 0; 0]; [0; 0; 0; 0]; [0; 0; 0; 0]] Image.Format_BW)
           {| pos_x := 409; pos_y := 109 |} 1 4).
  - reflexivity.
  - reflexivity.
  - reflexivity.
  - left. by vm_compute.
Defined.

(** X2.  An image with more than 300 rows, or with none, cannot be edited:
    in edit mode every pointer event ends in a [ZeroDivisionError] (the
    pixel size [300 // height] is 0, or the height is) and the widget stays
    as it was. *)
Theorem X2_tall_image_raises (self : ImageWidget.t) (img : Image.t)
    (event : QMouseEvent) :
  ImageWidget._image self = Some img -> ImageWidget._edit_mode self = true ->
  300 < Image.get_height img \/ Image.get_height img = 0 ->
  ImageWidget._draw_pixel event self = (Raised ZeroDivisionError, self).
Proof.
  intros Himg Hedit Hh.
  rewrite (_draw_pixel_editing self img event Himg Hedit).
  unfold cell_of_event, py_floordiv.
  destruct (Image.get_height img =? 0) eqn:Hz; [done|].
  rewrite Z.div_small by lia. done.
Qed.

Lemma X2_tall_image_raises_witness :
  ImageWidget._draw_pixel {| pos_x := 20; pos_y := 20 |}
    (editing (Image.new (replicate 301 [0]) Image.Format_BW))
  = (Raised ZeroDivisionError, editing (Image.new (replicate 301 [0]) Image.Format_BW)).
Proof.
  apply (X2_tall_image_raises (editing (Image.new (replicate 301 [0]) Image.Format_BW))
           (Image.new (replicate 301 [0]) Image.Format_BW) {| pos_x := 20; pos_y := 20 |}).
  - reflexivity.
  - reflexivity.
  - left. by vm_compute.
Defined.

(** X3.  The handler has no lower bound test, and Python's subscripts count
    from the end when negative: with an image loaded (rows of equal length)
    in edit mode, an event translated to (row, col) with
    [-height <= row < height] and [-width <= col < width] paints the cell
    (row mod height, col mod width).  For a row and column that are not
    negative this is the cell itself. *)
Theorem X3_paint_wraps_around (self : ImageWidget.t) (img : Image.t)
    (event : QMouseEvent) (row col : Z) :
  ImageWidget._image self = Some img -> ImageWidget._edit_mode self = true ->
  Image.rectangular img ->
  cell_of_event img event = Returned (row, col) ->
  - Image.get_height img <= row < Image.get_height img ->
  - Image.get_width img <= col < Image.get_width img ->
  ImageWidget._draw_pixel event self
  = (Returned tt,
     showing (PixelBuffer_set img
                (Z.to_nat (row mod Image.get_height img))
                (Z.to_nat (col mod Image.get_width img)) 1) true).
Proof.
  intros Himg Hedit Hrect Hcell Hrow Hcol.
  rewrite (_draw_pixel_editing self img event Himg Hedit), Hcell.
  destruct ((col >=? Image.get_width img) || (row >=? Image.get_height img)) eqn:E;
    [lia|].
  rewrite (paint_valid self img row col Hrect Hrow Hcol). by rewrite Hedit.
Qed.

Lemma X3_paint_wraps_around_witness :
  ImageWidget._draw_pixel {| pos_x := 5; pos_y := 109 |} canvas_4x3
  = (Returned tt,
     showing (PixelBuffer_set
                (Image.new [[0; 0; 0; 0]; [0; 0; 0; 0]; [0; 0; 0; 0]] Image.Format_BW)
                (Z.to_nat (1 mod 3)) (Z.to_nat (-1 mod 4)) 1) true).
Proof.
  apply (X3_paint_wraps_around canvas_4x3
           (Image.new [[0; 0; 0; 0]; [0; 0; 0; 0]; [0; 0; 0; 0]] Image.Format_BW)
           {| pos_x := 5; pos_y := 109 |} 1 (-1)).
  - reflexivity.
  - reflexivity.
  - by repeat constructor.
  - reflexivity.
  - by vm_compute.
  - by vm_compute.
Defined.

(** X4.  With an image loaded (rows of equal length) in edit mode, an event
    translated to a row below [-height] or a column below [-width], and not
    beyond the far edges, ends in an [IndexError]; the widget stays as it
    was. *)
Theorem X4_far_negative_raises (self : ImageWidget.t) (img : Image.t)
    (event : QMouseEvent) (row col : Z) :
  ImageWidget._image self = Some img -> ImageWidget._edit_mode self = true ->
  Image.rectangular img ->
  cell_of_event img event = Returned (row, col) ->
  row < Image.get_height img -> col < Image.get_width img ->
  row < - Image.get_height img \/ col < - Image.get_width img ->
  ImageWidget._draw_pixel event self = (Raised IndexError, self).
Proof.
  intros Himg Hedit Hrect Hcell Hrow Hcol Hout.
  rewrite (_draw_pixel_editing self img event Himg Hedit), Hcell.
  destruct ((col >=? Image.get_width img) || (row >=? Image.get_height img)) eqn:E;
    [lia|].
  by apply paint_invalid.
Qed.

Lemma X4_far_negative_raises_witness :
  ImageWidget._draw_pixel {| pos_x := -500; pos_y := 160 |} canvas_2x2
  = (Raised IndexError, canvas_2x2).
Proof.
  apply (X4_far_negative_raises canvas_2x2
           (Image.new [[0; 0]; [0; 0]] Image.Format_BW)
           {| pos_x := -500; pos_y := 160 |} 1 (-4)).
  - reflexivity.
  - reflexivity.
  - by repeat constructor.
  - reflexivity.
  - by vm_compute.
  - by vm_compute.
  - right. by vm_compute.
Defined.

Lemma _draw_pixel_gated (self : ImageWidget.t) (event : QMouseEvent) :
  ImageWidget._image self = None \/ ImageWidget._edit_mode self = false ->
  ImageWidget._draw_pixel event self = (Returned tt, self).
Proof.
  intros [Hnone|Hview]; unfold ImageWidget._draw_pixel, bind, get.
  - by rewrite Hnone.
  - rewrite Hview. by rewrite orb_true_r.
Qed.

(** A pointer event on a widget whose image has rows of equal length:
    if it raises, nothing has changed. *)
Lemma _draw_pixel_raised (self : ImageWidget.t) (event : QMouseEvent) (e : exn) :
  (forall img, ImageWidget._image self = Some img -> Image.rectangular img) ->
  fst (ImageWidget._draw_pixel event self) = Raised e ->
  snd (ImageWidget._draw_pixel event self) = self
  /\ (e = ZeroDivisionError \/ e = IndexError).
Proof.
  intros Hrect.
  destruct (ImageWidget._image self) as [img|] eqn:Himg;
    [destruct (ImageWidget._edit_mode self) eqn:Hedit|].
  - rewrite (_draw_pixel_editing self img event Himg Hedit).
    unfold cell_of_event, py_floordiv.
    destruct (Image.get_height img =? 0); [intros [= <-]; auto|].
    destruct (300 / Image.get_height img =? 0); [intros [= <-]; auto|].
    destruct ((_ >=? Image.get_width img) || (_ >=? Image.get_height img));
      [done|].
    unfold paint, bind, lift_outcome.
    destruct (py_setitem2 _ _ _ 1) as [a'|e'] eqn:Hset.
    + destruct (py_setitem2_Returned _ _ _ _ _ Hset) as (k & c & ->).
      unfold ImageWidget.set__image, modify.
      rewrite (_draw_image_rectangular _ (PixelBuffer_set img k c 1)); [done|done|].
      apply rectangular_set. by apply Hrect.
    + intros [= <-]. split; [done|]. right.
      unfold py_setitem2, py_setitem in Hset.
      repeat (destruct (py_index _ _) in Hset || destruct (_ !! _) in Hset);
        congruence.
  - rewrite (_draw_pixel_gated self event); [done | by right].
  - rewrite (_draw_pixel_gated self event); [done | by left].
Qed.

(** X5.  A pointer event that fails leaves no trace: when the widget's
    image, if any, has rows of equal length and the handler raises, the
    widget is exactly as before, and the exception is a
    [ZeroDivisionError] or an [IndexError]. *)
Theorem X5_failed_event_changes_nothing (self : ImageWidget.t)
    (event : QMouseEvent) (e : exn) :
  (forall img, ImageWidget._image self = Some img -> Image.rectangular img) ->
  fst (ImageWidget._draw_pixel event self) = Raised e ->
  snd (ImageWidget._draw_pixel event self) = self
  /\ (e = ZeroDivisionError \/ e = IndexError).
Proof. apply _draw_pixel_raised. Qed.

Lemma X5_failed_event_changes_nothing_witness :
  snd (ImageWidget._draw_pixel {| pos_x := -500; pos_y := 160 |} canvas_2x2) = canvas_2x2
  /\ (IndexError = ZeroDivisionError \/ IndexError = IndexError).
Proof.
  apply (X5_failed_event_changes_nothing canvas_2x2
           {| pos_x := -500; pos_y := 160 |} IndexError).
  - intros img [= <-]. by repeat constructor.
  - reflexivity.
Defined.

(** ** From the display to the grid *)

Lemma cell_of_event_block (img : Image.t) (row col dx dy : Z) :
  1 <= Image.get_height img <= 300 ->
  0 <= dx < 300 / Image.get_height img ->
  0 <= dy < 300 / Image.get_height img ->
  cell_of_event img
    {| pos_x := 9 + col * (300 / Image.get_height img) + dx;
       pos_y := 9 + row * (300 / Image.get_height img) + dy |}
  = Returned (row, col).
Proof.
  intros Hh Hdx Hdy. unfold cell_of_event, py_floordiv. cbn [pos_x pos_y].
  destruct (Image.get_height img =? 0) eqn:Hz; [lia|].
  destruct (300 / Image.get_height img =? 0) eqn:Hp; [lia|].
  set (pixel_size := 300 / Image.get_height img) in *.
  do 2 f_equal; symmetry.
  - apply (Z.div_unique_pos _ pixel_size row dy); lia.
  - apply (Z.div_unique_pos _ pixel_size col dx); lia.
Qed.

(** X6.  Every cell owns a square of the display: for an image of 1 to 300
    rows (of equal length) shown in edit mode, a click anywhere in the
    square of side [300 // height] whose top-left corner is at
    [(9 + col * side, 9 + row * side)] paints the in-bounds cell
    (row, col). *)
Theorem X6_click_in_block_paints_cell (self : ImageWidget.t) (img : Image.t)
    (row col dx dy : Z) :
  ImageWidget._image self = Some img -> ImageWidget._edit_mode self = true ->
  Image.rectangular img ->
  1 <= Image.get_height img <= 300 ->
  0 <= row < Image.get_height img -> 0 <= col < Image.get_width img ->
  0 <= dx < 300 / Image.get_height img ->
  0 <= dy < 300 / Image.get_height img ->
  ImageWidget._draw_pixel
    {| pos_x := 9 + col * (300 / Image.get_height img) + dx;
       pos_y := 9 + row * (300 / Image.get_height img) + dy |} self
  = (Returned tt,
     showing (PixelBuffer_set img (Z.to_nat row) (Z.to_nat col) 1) true).
Proof.
  intros Himg Hedit Hrect Hh Hrow Hcol Hdx Hdy.
  apply (_draw_pixel_inside self img _ row col); try done.
  by apply cell_of_event_block.
Qed.

Lemma X6_click_in_block_paints_cell_witness :
  ImageWidget._draw_pixel
    {| pos_x := 9 + 2 * (300 / 3) + 99; pos_y := 9 + 1 * (300 / 3) + 57 |} canvas_4x3
  = (Returned tt,
     showing (PixelBuffer_set
                (Image.new [[0; 0; 0; 0]; [0; 0; 0; 0]; [0; 0; 0; 0]] Image.Format_BW)
                (Z.to_nat 1) (Z.to_nat 2) 1) true).
Proof.
  apply (X6_click_in_block_paints_cell canvas_4x3
           (Image.new [[0; 0; 0; 0]; [0; 0; 0; 0]; [0; 0; 0; 0]] Image.Format_BW)
           1 2 99 57).
  - reflexivity.
  - reflexivity.
  - by repeat constructor.
  - by vm_compute.
  - by vm_compute.
  - by vm_compute.
  - by vm_compute.
  - by vm_compute.
Defined.

(** ** Paints together *)

Lemma PixelBuffer_set_commute (img : Image.t) (k c k' c' : nat) (v : Z) :
  PixelBuffer_set (PixelBuffer_set img k c v) k' c' v
  = PixelBuffer_set (PixelBuffer_set img k' c' v) k c v.
Proof.
  unfold PixelBuffer_set. cbn. f_equal. apply list_eq. intros i.
  rewrite !list_lookup_alter.
  destruct (decide (k' = i)) as [->|Hk'], (decide (k = i)) as [->|Hk];
    rewrite ?decide_True, ?decide_False by done; try done.
  destruct (Image.to_array img !! i) as [row|]; [|done]. cbn. f_equal.
  destruct (decide (c = c')) as [->|Hc]; [done|].
  by apply list_insert_insert_ne.
Qed.

(** X7.  The order of two paints does not matter: on a loaded image (rows
    of equal length) in edit mode, two events that denote in-bounds cells
    leave the same widget whichever comes first. *)
Theorem X7_paints_commute (self : ImageWidget.t) (img : Image.t)
    (event1 event2 : QMouseEvent) (row1 col1 row2 col2 : Z) :
  ImageWidget._image self = Some img -> ImageWidget._edit_mode self = true ->
  Image.rectangular img ->
  cell_of_event img event1 = Returned (row1, col1) ->
  cell_of_event img event2 = Returned (row2, col2) ->
  0 <= row1 < Image.get_height img -> 0 <= col1 < Image.get_width img ->
  0 <= row2 < Image.get_height img -> 0 <= col2 < Image.get_width img ->
  pointer_events [event1; event2] self = pointer_events [event2; event1] self.
Proof.
  intros Himg Hedit Hrect Hcell1 Hcell2 Hr1 Hc1 Hr2 Hc2.
  unfold pointer_events. cbn [foldl].
  rewrite (_draw_pixel_inside self img event1 row1 col1) by done.
  rewrite (_draw_pixel_inside self img event2 row2 col2) by done.
  cbn [snd].
  rewrite (_draw_pixel_inside _ (PixelBuffer_set img (Z.to_nat row1) (Z.to_nat col1) 1)
             event2 row2 col2);
    [|done|done|by apply rectangular_set|by rewrite cell_of_event_set
     |by rewrite get_height_set|by rewrite get_width_set].
  rewrite (_draw_pixel_inside _ (PixelBuffer_set img (Z.to_nat row2) (Z.to_nat col2) 1)
             event1 row1 col1);
    [|done|done|by apply rectangular_set|by rewrite cell_of_event_set
     |by rewrite get_height_set|by rewrite get_width_set].
  cbn [snd]. by rewrite PixelBuffer_set_commute.
Qed.

Lemma X7_paints_commute_witness :
  pointer_events [{| pos_x := 209; pos_y := 109 |}; {| pos_x := 9; pos_y := 250 |}] canvas_4x3
  = pointer_events [{| pos_x := 9; pos_y := 250 |}; {| pos_x := 209; pos_y := 109 |}] canvas_4x3.
Proof.
  apply (X7_paints_commute canvas_4x3
           (Image.new [[0; 0; 0; 0]; [0; 0; 0; 0]; [0; 0; 0; 0]] Image.Format_BW)
           {| pos_x := 209; pos_y := 109 |} {| pos_x := 9; pos_y := 250 |} 1 2 2 0).
  - reflexivity.
  - reflexivity.
  - by repeat constructor.
  - reflexivity.
  - reflexivity.
  - by vm_compute.
  - by vm_compute.
  - by vm_compute.
  - by vm_compute.
Defined.

(** ** What pointer events keep *)

Lemma _draw_pixel_shape (self : ImageWidget.t) (event : QMouseEvent) :
  image_shape (snd (ImageWidget._draw_pixel event self)) = image_shape self.
Proof.
  unfold image_shape.
  destruct (_draw_pixel_image self event) as [->|(img & k & c & -> & ->)]; [done|].
  cbn. by rewrite get_width_set, get_height_set.
Qed.

(** X8.  Pointer events never resize or retag the image: after any
    sequence of them, on any widget and whether or not some of them fail,
    the image is present exactly if it was, with the same width, height
    and format. *)
Theorem X8_pointer_events_keep_shape (events : list QMouseEvent)
    (self : ImageWidget.t) :
  image_shape (pointer_events events self) = image_shape self.
Proof.
  revert self. induction events as [|event events IH]; intros self; [done|].
  unfold pointer_events in *. cbn [foldl]. rewrite IH. apply _draw_pixel_shape.
Qed.

Lemma bitonal_set (img : Image.t) (k c : nat) :
  bitonal img -> bitonal (PixelBuffer_set img k c 1).
Proof.
  unfold bitonal, PixelBuffer_set. cbn. intros Hbit.
  apply Forall_alter; [done|]. intros row _ Hrow.
  apply Forall_insert; [done | by right].
Qed.

(** X9.  Pointer events keep a black-and-white image black-and-white: if
    every pixel of the widget's image is 0 or 1, then so is every pixel of
    its image after any sequence of pointer events. *)
Theorem X9_pointer_events_keep_bitonal (events : list QMouseEvent)
    (self : ImageWidget.t) (img : Image.t) :
  ImageWidget._image self = Some img -> bitonal img ->
  exists img',
    ImageWidget._image (pointer_events events self) = Some img' /\ bitonal img'.
Proof.
  revert self img. induction events as [|event events IH]; intros self img Himg Hbit;
    [by exists img|].
  unfold pointer_events in *. cbn [foldl].
  destruct (_draw_pixel_image self event) as [Hsame|(img0 & k & c & Himg0 & Hset)].
  - apply (IH _ img); [by rewrite Hsame | done].
  - apply (IH _ (PixelBuffer_set img0 k c 1)); [done|].
    apply bitonal_set. by simplify_eq.
Qed.

Lemma X9_pointer_events_keep_bitonal_witness :
  exists img',
    ImageWidget._image
      (pointer_events [{| pos_x := 209; pos_y := 109 |}; {| pos_x := 5; pos_y := 5 |}]
         canvas_4x3)
    = Some img' /\ bitonal img'.
Proof.
  apply (X9_pointer_events_keep_bitonal
           [{| pos_x := 209; pos_y := 109 |}; {| pos_x := 5; pos_y := 5 |}] canvas_4x3
           (Image.new [[0; 0; 0; 0]; [0; 0; 0; 0]; [0; 0; 0; 0]] Image.Format_BW)).
  - reflexivity.
  - repeat constructor; by left.
Defined.


(** ** What is drawn *)

Lemma foldl_insert_lookup {A X} (idx : X -> nat) (g : nat -> A) (xs : list X)
    (l : list A) (i : nat) :
  (i < length l)%nat ->
  foldl (fun l x => <[idx x:=g (idx x)]> l) l xs !! i
  = if decide (i ∈ idx <$> xs) then Some (g i) else l !! i.
Proof.
  revert l. induction xs as [|x xs IH]; intros l Hi; cbn [foldl fmap list_fmap].
  - by rewrite decide_False by apply not_elem_of_nil.
  - rewrite IH by (by rewrite length_insert).
    destruct (decide (i ∈ idx <$> xs)) as [Hin|Hnin].
    + rewrite decide_True; [done | by right].
    + destruct (decide (idx x = i)) as [<-|Hne].
      * rewrite decide_True by left. by rewrite list_lookup_insert_eq.
      * rewrite decide_False; [by rewrite list_lookup_insert_ne|].
        intros [->|?]%elem_of_cons; done.
Qed.

Lemma foldl_insert_length {A X} (idx : X -> nat) (f : X -> A) (xs : list X)
    (l : list A) :
  length (foldl (fun l x => <[idx x:=f x]> l) l xs) = length l.
Proof.
  revert l. induction xs as [|x xs IH]; intros l; [done|].
  cbn [foldl]. by rewrite IH, length_insert.
Qed.

(** Overwriting every position of a list. *)
Lemma foldl_insert_all {A B} (f : B -> A) (src : list B) `{!Inhabited B}
    (l : list A) (n : Z) :
  length l = length src -> n = Z.of_nat (length src) ->
  foldl (fun l c => <[Z.to_nat c:=f (src !!! Z.to_nat c)]> l) l (py_range n)
  = f <$> src.
Proof.
  intros Hlen ->. apply list_eq. intros i.
  destruct (decide (i < length l)%nat) as [Hi|Hi].
  - rewrite (foldl_insert_lookup Z.to_nat (fun c => f (src !!! c))) by done.
    rewrite decide_True.
    + rewrite list_lookup_fmap.
      destruct (lookup_lt_is_Some_2 src i) as [b Hb]; [lia|].
      by rewrite (list_lookup_total_correct _ _ _ Hb), Hb.
    + apply list_elem_of_fmap. exists (Z.of_nat i).
      split; [lia|]. apply elem_of_py_range. lia.
  - rewrite !lookup_ge_None_2; [done| |].
    + rewrite length_fmap. lia.
    + rewrite (foldl_insert_length Z.to_nat (fun c => f (src !!! Z.to_nat c))). lia.
Qed.

(** A loop whose body, while an invariant holds, is a plain update. *)
Lemma for_each_foldl {S A} (Inv : S -> Prop) (step : A -> S -> S)
    (xs : list A) (body : A -> M S unit) :
  (forall x s, x ∈ xs -> Inv s -> body x s = (Returned tt, step x s) /\ Inv (step x s)) ->
  forall s, Inv s ->
    for_each xs body s = (Returned tt, foldl (fun s x => step x s) s xs)
    /\ Inv (foldl (fun s x => step x s) s xs).
Proof.
  induction xs as [|x xs IH]; intros Hbody s Hs; [done|].
  cbn [for_each foldl]. unfold bind.
  destruct (Hbody x s ltac:(left) Hs) as [-> Hs'].
  apply IH; [|done]. intros y s' Hy. apply Hbody. by right.
Qed.

Lemma foldl_alter {A X} (f : X -> A -> A) (r : nat) (xs : list X) (l : list A) :
  foldl (fun l x => alter (f x) r l) l xs
  = alter (fun a => foldl (fun a x => f x a) a xs) r l.
Proof.
  revert l. induction xs as [|x xs IH]; intros l; cbn [foldl].
  - by rewrite list_alter_id.
  - rewrite IH. apply list_eq. intros i.
    destruct (decide (r = i)) as [<-|Hne].
    + rewrite !list_lookup_alter_eq. by destruct (l !! r).
    + by rewrite !list_lookup_alter_ne.
Qed.

(** The inner loop of [_draw_image] colours one row of the [QImage]. *)
Lemma draw_row (img : Image.t) (row : Z) (arow qrow : list Z) (q : QImage.t) :
  0 <= row ->
  Image.to_array img !! Z.to_nat row = Some arow ->
  Z.of_nat (length arow) = Image.get_width img ->
  (q : list (list Z)) !! Z.to_nat row = Some qrow -> length qrow = length arow ->
  for_each (py_range (Image.get_width img)) (fun col =>
    let* p := lift_outcome (py_getitem2 (Image.to_array img) row col) in
    let color := if p =? 1 then QImage.qRgb 0 0 0 else QImage.qRgb 255 255 255 in
    QImage.setPixel col row color) q
  = (Returned tt, <[Z.to_nat row:=color_of <$> arow]> (q : list (list Z))).
Proof.
  intros Hrow Harow Hw Hqrow Hlen.
  pose proof (lookup_lt_Some _ _ _ Harow) as Hrow_lt.
  destruct (for_each_foldl
    (fun q' : QImage.t =>
       exists qrow', (q' : list (list Z)) !! Z.to_nat row = Some qrow'
                     /\ length qrow' = length arow)
    (fun col (q' : QImage.t) =>
       alter (fun r => <[Z.to_nat col:=color_of (arow !!! Z.to_nat col)]> r)
         (Z.to_nat row) (q' : list (list Z)))
    (py_range (Image.get_width img))
    (fun col =>
       let* p := lift_outcome (py_getitem2 (Image.to_array img) row col) in
       let color := if p =? 1 then QImage.qRgb 0 0 0 else QImage.qRgb 255 255 255 in
       QImage.setPixel col row color)) with q as [Hrun _].
  - intros col q' Hcol (qrow' & Hq' & Hlen'). apply elem_of_py_range in Hcol.
    unfold bind, lift_outcome, py_getitem2, py_getitem.
    rewrite (py_index_inside _ row) by lia. rewrite Harow.
    rewrite (py_index_inside _ col) by lia.
    destruct (lookup_lt_is_Some_2 arow (Z.to_nat col)) as [p Hp]; [lia|].
    rewrite Hp, (list_lookup_total_correct _ _ _ Hp).
    unfold QImage.setPixel, modify, QImage.t in *.
    destruct ((0 <=? col) && (0 <=? row)) eqn:E; [|lia].
    rewrite Hq'. split.
    + f_equal. by apply (insert_row_alter q' _ qrow'
                          (fun r => <[Z.to_nat col:=color_of p]> r)).
    + exists (<[Z.to_nat col:=color_of p]> qrow').
      rewrite list_lookup_alter_eq, Hq'. split; [done|]. by rewrite length_insert.
  - by exists qrow.
  - rewrite Hrun. f_equal. unfold QImage.t in *. cbv beta.
    rewrite (foldl_alter
               (fun col r => <[Z.to_nat col:=color_of (arow !!! Z.to_nat col)]> r)).
    rewrite <- (insert_row_alter q _ qrow) by done. f_equal.
    by apply (foldl_insert_all color_of arow).
Qed.

(** The two loops of [_draw_image] colour the whole [QImage]. *)
Lemma draw_pixels_BW (img : Image.t) (q : QImage.t) :
  Image.rectangular img ->
  Image.get_image_format img = Image.Format_BW ->
  length q = length (Image.to_array img) ->
  Forall (fun qrow => Z.of_nat (length qrow) = Image.get_width img) q ->
  ImageWidget.draw_pixels img q
  = (Returned tt, (fun row : list Z => color_of <$> row) <$> Image.to_array img).
Proof.
  intros Hrect Hfmt Hlen Hrows. unfold ImageWidget.draw_pixels. cbv zeta.
  rewrite Hfmt, Z.eqb_refl.
  destruct (for_each_foldl
    (fun q' : QImage.t =>
       length q' = length (Image.to_array img)
       /\ Forall (fun qrow => Z.of_nat (length qrow) = Image.get_width img) q')
    (fun row (q' : QImage.t) =>
       <[Z.to_nat row:=color_of <$> (Image.to_array img !!! Z.to_nat row)]>
         (q' : list (list Z)))
    (py_range (Image.get_height img))
    (fun row =>
       for_each (py_range (Image.get_width img)) (fun col =>
         let* p := lift_outcome (py_getitem2 (Image.to_array img) row col) in
         let color := if p =? 1 then QImage.qRgb 0 0 0 else QImage.qRgb 255 255 255 in
         QImage.setPixel col row color))) with q as [Hrun _].
  - intros row q' Hrow [Hlen' Hrows']. apply elem_of_py_range in Hrow.
    unfold Image.get_height in Hrow.
    destruct (lookup_lt_is_Some_2 (Image.to_array img) (Z.to_nat row))
      as [arow Harow]; [lia|].
    destruct (lookup_lt_is_Some_2 q' (Z.to_nat row)) as [qrow Hqrow]; [lia|].
    pose proof (rectangular_row img _ arow Hrect Harow) as Hw.
    pose proof (Forall_lookup_1 _ _ _ _ Hrows' Hqrow) as Hqw. cbn in Hqw.
    rewrite (draw_row img row arow qrow q') by (done || lia).
    rewrite (list_lookup_total_correct _ _ _ Harow).
    split; [done|]. split; [by rewrite length_insert|].
    apply Forall_insert; [done|]. by rewrite length_fmap.
  - done.
  - cbv zeta in Hrun. rewrite Hrun. f_equal. unfold QImage.t in *. cbv beta.
    by apply (foldl_insert_all (fun row : list Z => color_of <$> row)
                (Image.to_array img)).
Qed.

Lemma render_BW (img : Image.t) :
  Image.rectangular img ->
  Image.get_image_format img = Image.Format_BW ->
  render img = (fun row : list Z => color_of <$> row) <$> Image.to_array img.
Proof.
  intros Hrect Hfmt. unfold render. rewrite draw_pixels_BW; try done.
  - unfold QImage.fill, QImage.new, Image.get_height.
    rewrite length_fmap, length_replicate. lia.
  - unfold QImage.fill, QImage.new. apply Forall_fmap, Forall_replicate. cbn.
    rewrite length_fmap, length_replicate.
    unfold Image.get_width. lia.
Qed.

(** X10.  What is on screen is the image: after [set_image] of a
    black-and-white image with rows of equal length the call has returned
    normally, the widget holds the image, and the [QImage] it drew has one
    pixel per image pixel, black where the value is 1 and white elsewhere;
    the label shows that [QImage] scaled to height 300. *)
Theorem X10_set_image_draws_the_image (self : ImageWidget.t) (img : Image.t) :
  Image.rectangular img ->
  Image.get_image_format img = Image.Format_BW ->
  ImageWidget.set_image img self
  = (Returned tt,
     {| ImageWidget._image := Some img;
        ImageWidget._qimage :=
          Some ((fun row : list Z => color_of <$> row) <$> Image.to_array img);
        ImageWidget._edit_mode := ImageWidget._edit_mode self;
        ImageWidget._label :=
          Some (scaledToHeight
                  ((fun row : list Z => color_of <$> row) <$> Image.to_array img) 300) |}).
Proof.
  intros Hrect Hfmt. rewrite (set_image_rectangular self img Hrect).
  unfold showing. by rewrite (render_BW img Hrect Hfmt).
Qed.

Lemma X10_set_image_draws_the_image_witness :
  ImageWidget.set_image (Image.new [[0; 1]; [1; 0]] Image.Format_BW) ImageWidget.__init__
  = (Returned tt,
     {| ImageWidget._image := Some (Image.new [[0; 1]; [1; 0]] Image.Format_BW);
        ImageWidget._qimage :=
          Some ((fun row : list Z => color_of <$> row)
                  <$> Image.to_array (Image.new [[0; 1]; [1; 0]] Image.Format_BW));
        ImageWidget._edit_mode := ImageWidget._edit_mode ImageWidget.__init__;
        ImageWidget._label :=
          Some (scaledToHeight
                  ((fun row : list Z => color_of <$> row)
                     <$> Image.to_array (Image.new [[0; 1]; [1; 0]] Image.Format_BW)) 300) |}).
Proof.
  apply (X10_set_image_draws_the_image ImageWidget.__init__
           (Image.new [[0; 1]; [1; 0]] Image.Format_BW)).
  - by repeat constructor.
  - reflexivity.
Defined.


(** ** Opening and saving *)

Lemma open_file_action_decoded (window : MainWindow.t) (filepath : string)
    (from_file : string -> outcome Image.t) (img : Image.t) :
  filepath <> EmptyString -> from_file filepath = Returned img ->
  Image.rectangular img ->
  MainWindow.open_file_action filepath from_file window
  = (Returned tt,
     {| MainWindow._image_widget := showing img (edit_mode_of window);
        MainWindow.shown := MainWindow.shown window;
        MainWindow.written := MainWindow.written window |}).
Proof.
  intros Hpath Hdecode Hrect. unfold MainWindow.open_file_action.
  rewrite bool_decide_eq_false_2 by done.
  unfold try_except_ValueError, bind, lift_outcome, MainWindow.on_image_widget.
  rewrite Hdecode. by rewrite (set_image_rectangular _ img Hrect).
Qed.

(** X11.  Opening a file that decodes to an image with rows of equal
    length returns normally and makes the widget show that image; the edit
    mode is what it was, no message box is shown and nothing is written. *)
Theorem X11_open_shows_decoded_image (window : MainWindow.t) (filepath : string)
    (from_file : string -> outcome Image.t) (img : Image.t) :
  filepath <> EmptyString -> from_file filepath = Returned img ->
  Image.rectangular img ->
  MainWindow.open_file_action filepath from_file window
  = (Returned tt,
     {| MainWindow._image_widget := showing img (edit_mode_of window);
        MainWindow.shown := MainWindow.shown window;
        MainWindow.written := MainWindow.written window |}).
Proof. apply open_file_action_decoded. Qed.

Lemma X11_open_shows_decoded_image_witness :
  MainWindow.open_file_action "cross.limg"
    (fun _ => Returned (Image.new [[0; 1]; [1; 0]] Image.Format_BW)) MainWindow.__init__
  = (Returned tt,
     {| MainWindow._image_widget :=
          showing (Image.new [[0; 1]; [1; 0]] Image.Format_BW)
            (edit_mode_of MainWindow.__init__);
        MainWindow.shown := MainWindow.shown MainWindow.__init__;
        MainWindow.written := MainWindow.written MainWindow.__init__ |}).
Proof.
  apply (X11_open_shows_decoded_image MainWindow.__init__ "cross.limg"
           (fun _ => Returned (Image.new [[0; 1]; [1; 0]] Image.Format_BW))
           (Image.new [[0; 1]; [1; 0]] Image.Format_BW)).
  - discriminate.
  - reflexivity.
  - by repeat constructor.
Defined.

(** X12.  Only [ValueError] is caught: when reading the chosen file raises
    anything else, the exception leaves [open_file_action], no message box
    is shown and the window is exactly as before. *)
Theorem X12_open_lets_other_errors_through (window : MainWindow.t)
    (filepath : string) (from_file : string -> outcome Image.t) (e : exn) :
  filepath <> EmptyString -> from_file filepath = Raised e ->
  (forall msg, e <> ValueError msg) ->
  MainWindow.open_file_action filepath from_file window = (Raised e, window).
Proof.
  intros Hpath Hdecode Hother. unfold MainWindow.open_file_action.
  rewrite bool_decide_eq_false_2 by done.
  unfold try_except_ValueError, bind, lift_outcome. rewrite Hdecode.
  destruct e as [| | |msg|msg]; try done. by destruct (Hother msg).
Qed.

Lemma X12_open_lets_other_errors_through_witness :
  MainWindow.open_file_action "missing.limg"
    (fun _ => Raised (OtherError "No such file or directory")) MainWindow.__init__
  = (Raised (OtherError "No such file or directory"), MainWindow.__init__).
Proof.
  apply (X12_open_lets_other_errors_through MainWindow.__init__ "missing.limg"
           (fun _ => Raised (OtherError "No such file or directory"))
           (OtherError "No such file or directory")).
  - discriminate.
  - reflexivity.
  - discriminate.
Defined.

(** X13.  With an image loaded and a path chosen, [save_file_action] hands
    exactly the widget's current image and that path to [write_to_file].
    If the write returns, the action returns and the only change is the
    new entry in the log of written files; if the write raises, the
    exception leaves the action and the window is exactly as before. *)
Theorem X13_save_writes_current_image (window : MainWindow.t) (filepath : string)
    (write_to_file : Image.t -> string -> outcome unit) (img : Image.t) :
  ImageWidget._image (MainWindow._image_widget window) = Some img ->
  filepath <> EmptyString ->
  MainWindow.save_file_action filepath write_to_file window
  = match write_to_file img filepath with
    | Returned _ =>
        (Returned tt,
         {| MainWindow._image_widget := MainWindow._image_widget window;
            MainWindow.shown := MainWindow.shown window;
            MainWindow.written := (filepath, img) :: MainWindow.written window |})
    | Raised e => (Raised e, window)
    end.
Proof.
  intros Himg Hpath. destruct window as [widget boxes files]. cbn in Himg.
  unfold MainWindow.save_file_action, bind, MainWindow.on_image_widget,
    ImageWidget.get_image, ImageWidget.deref__image, get, ret, lift_outcome.
  cbn. rewrite Himg. cbn. rewrite bool_decide_eq_false_2 by done.
  cbn. rewrite ?Himg. by destruct (write_to_file img filepath) as [[]|e].
Qed.

Lemma X13_save_writes_current_image_witness :
  MainWindow.save_file_action "out.limg" (fun _ _ => Returned tt)
    {| MainWindow._image_widget := canvas_2x2; MainWindow.shown := [];
       MainWindow.written := [] |}
  = match (fun _ _ => Returned tt) (Image.new [[0; 0]; [0; 0]] Image.Format_BW) "out.limg" with
    | Returned _ =>
        (Returned tt,
         {| MainWindow._image_widget := canvas_2x2;
            MainWindow.shown := [];
            MainWindow.written :=
              [("out.limg", Image.new [[0; 0]; [0; 0]] Image.Format_BW)] |})
    | Raised e =>
        (Raised e,
         {| MainWindow._image_widget := canvas_2x2; MainWindow.shown := [];
            MainWindow.written := [] |})
    end.
Proof.
  apply (X13_save_writes_current_image
           {| MainWindow._image_widget := canvas_2x2; MainWindow.shown := [];
              MainWindow.written := [] |}
           "out.limg" (fun _ _ => Returned tt)
           (Image.new [[0; 0]; [0; 0]] Image.Format_BW)).
  - reflexivity.
  - discriminate.
Defined.

(** X14.  Without an image, or when the file chooser is cancelled,
    [save_file_action] returns normally, writes nothing and leaves the
    window exactly as before, whatever writing would have done. *)
Theorem X14_save_gating (window : MainWindow.t) (filepath : string)
    (write_to_file : Image.t -> string -> outcome unit) :
  ImageWidget._image (MainWindow._image_widget window) = None
  \/ filepath = EmptyString ->
  MainWindow.save_file_action filepath write_to_file window = (Returned tt, window).
Proof.
  intros Hgate. destruct window as [widget boxes files]. cbn in Hgate.
  unfold MainWindow.save_file_action, bind, MainWindow.on_image_widget,
    ImageWidget.get_image, ImageWidget.deref__image, get, ret, lift_outcome.
  cbn. destruct (ImageWidget._image widget) as [img|] eqn:Himg; cbn; [|done].
  destruct Hgate as [?| ->]; [done|]. by rewrite bool_decide_eq_true_2.
Qed.

Lemma X14_save_gating_witness :
  MainWindow.save_file_action "out.limg" (fun _ _ => Raised (OtherError "disk full"))
    MainWindow.__init__
  = (Returned tt, MainWindow.__init__).
Proof.
  apply (X14_save_gating MainWindow.__init__ "out.limg"
           (fun _ _ => Raised (OtherError "disk full"))).
  left. reflexivity.
Defined.

(** ** Runs of the event loop *)

Lemma dispatch_pointer_view_only (ev : ShellEvent) (window : MainWindow.t) :
  is_pointer ev = true -> edit_mode_of window = false ->
  dispatch ev window = (Returned tt, window).
Proof.
  intros Hev Hoff. destruct window as [widget boxes files].
  unfold edit_mode_of in Hoff. cbn in Hoff.
  destruct ev as [| | |event|event]; try discriminate; cbn [dispatch];
    unfold MainWindow.on_image_widget, ImageWidget.mouseMoveEvent,
      ImageWidget.mousePressEvent; cbn [MainWindow._image_widget];
    by rewrite (_draw_pixel_gated widget event) by (by right).
Qed.

(** X15.  Until a new image has been created the window is a viewer: from
    a window whose edit mode is off, in a run without an accepted new-image
    dialog, the pointer events do nothing at all, so the run ends in the
    same window as the run with the pointer events left out. *)
Theorem X15_view_only_until_new (events : list ShellEvent) (window : MainWindow.t) :
  edit_mode_of window = false ->
  forallb (fun ev => negb (is_accepted_new ev)) events = true ->
  exec_ events window
  = exec_ (List.filter (fun ev => negb (is_pointer ev)) events) window.
Proof.
  revert window. induction events as [|ev events IH]; intros window Hoff Hnew; [done|].
  cbn [forallb] in Hnew. apply andb_prop in Hnew as [Hev Hnew].
  unfold exec_ in *. cbn [foldl List.filter].
  destruct (is_pointer ev) eqn:Hptr; cbn [negb foldl].
  - rewrite (dispatch_pointer_view_only ev window Hptr Hoff). cbn [snd]. by apply IH.
  - apply IH; [|done]. unfold edit_mode_of in *. fold (edit_mode_of (snd (dispatch ev window))).
    rewrite dispatch_edit_mode. fold (edit_mode_of window).
    by destruct ev as [? [|]| | | |].
Qed.

Lemma X15_view_only_until_new_witness :
  exec_ [MousePress {| pos_x := 20; pos_y := 20 |};
         OpenFile "cross.limg" (fun _ => Returned (Image.new [[0; 1]; [1; 0]] Image.Format_BW));
         MouseMove {| pos_x := 20; pos_y := 20 |};
         NewFile [EnterWidth 2] Rejected]
    MainWindow.__init__
  = exec_ (List.filter (fun ev => negb (is_pointer ev))
             [MousePress {| pos_x := 20; pos_y := 20 |};
              OpenFile "cross.limg"
                (fun _ => Returned (Image.new [[0; 1]; [1; 0]] Image.Format_BW));
              MouseMove {| pos_x := 20; pos_y := 20 |};
              NewFile [EnterWidth 2] Rejected])
      MainWindow.__init__.
Proof.
  apply (X15_view_only_until_new
           [MousePress {| pos_x := 20; pos_y := 20 |};
            OpenFile "cross.limg"
              (fun _ => Returned (Image.new [[0; 1]; [1; 0]] Image.Format_BW));
            MouseMove {| pos_x := 20; pos_y := 20 |};
            NewFile [EnterWidth 2] Rejected]
           MainWindow.__init__).
  - reflexivity.
  - reflexivity.
Defined.

(** X16.  Edit mode outlives the image it was switched on for: once it is
    on, a file that is opened (decoding to rows of equal length) is shown
    in edit mode, and a pointer event that denotes an in-bounds cell of the
    opened image paints it. *)
Theorem X16_opened_image_is_editable (window : MainWindow.t) (filepath : string)
    (from_file : string -> outcome Image.t) (img : Image.t)
    (event : QMouseEvent) (row col : Z) :
  edit_mode_of window = true ->
  filepath <> EmptyString -> from_file filepath = Returned img ->
  Image.rectangular img ->
  cell_of_event img event = Returned (row, col) ->
  0 <= row < Image.get_height img -> 0 <= col < Image.get_width img ->
  exec_ [OpenFile filepath from_file; MousePress event] window
  = {| MainWindow._image_widget :=
         showing (PixelBuffer_set img (Z.to_nat row) (Z.to_nat col) 1) true;
       MainWindow.shown := MainWindow.shown window;
       MainWindow.written := MainWindow.written window |}.
Proof.
  intros Hon Hpath Hdecode Hrect Hcell Hrow Hcol.
  unfold exec_. cbn [foldl dispatch].
  rewrite (open_file_action_decoded window filepath from_file img) by done.
  cbn [snd]. unfold MainWindow.on_image_widget, ImageWidget.mousePressEvent.
  cbn [MainWindow._image_widget MainWindow.shown MainWindow.written].
  rewrite Hon.
  by rewrite (_draw_pixel_inside (showing img true) img event row col).
Qed.

Lemma X16_opened_image_is_editable_witness :
  exec_ [OpenFile "cross.limg"
           (fun _ => Returned (Image.new [[0; 1]; [1; 0]] Image.Format_BW));
         MousePress {| pos_x := 9; pos_y := 9 |}]
    {| MainWindow._image_widget := canvas_4x3; MainWindow.shown := [];
       MainWindow.written := [] |}
  = {| MainWindow._image_widget :=
         showing (PixelBuffer_set (Image.new [[0; 1]; [1; 0]] Image.Format_BW)
                    (Z.to_nat 0) (Z.to_nat 0) 1) true;
       MainWindow.shown := [];
       MainWindow.written := [] |}.
Proof.
  apply (X16_opened_image_is_editable
           {| MainWindow._image_widget := canvas_4x3; MainWindow.shown := [];
              MainWindow.written := [] |}
           "cross.limg"
           (fun _ => Returned (Image.new [[0; 1]; [1; 0]] Image.Format_BW))
           (Image.new [[0; 1]; [1; 0]] Image.Format_BW)
           {| pos_x := 9; pos_y := 9 |} 0 0).
  - reflexivity.
  - discriminate.
  - reflexivity.
  - by repeat constructor.
  - reflexivity.
  - by vm_compute.
  - by vm_compute.
Defined.

(** X17.  From start-up on, if every file that is opened decodes to rows
    of equal length, the image the window holds has rows of equal length
    after any run of events: new images are built that way and paints keep
    it. *)
Theorem X17_rows_stay_equal (events : list ShellEvent) :
  Forall decodes_rectangular events ->
  holds_rectangular (exec_ events MainWindow.__init__).
Proof. apply exec_rectangular. Qed.

Lemma X17_rows_stay_equal_witness :
  holds_rectangular
    (exec_ [NewFile [EnterWidth 4; EnterHeight 3] Accepted;
            MousePress {| pos_x := 5; pos_y := 109 |};
            OpenFile "cross.limg"
              (fun _ => Returned (Image.new [[0; 1]; [1; 0]] Image.Format_BW))]
       MainWindow.__init__).
Proof.
  apply (X17_rows_stay_equal
           [NewFile [EnterWidth 4; EnterHeight 3] Accepted;
            MousePress {| pos_x := 5; pos_y := 109 |};
            OpenFile "cross.limg"
              (fun _ => Returned (Image.new [[0; 1]; [1; 0]] Image.Format_BW))]).
  repeat constructor. intros img [= <-]. by repeat constructor.
Defined.

(** ** What the handlers never do *)

Lemma for_each_raised {S A} (P : exn -> Prop) (xs : list A) (body : A -> M S unit) :
  (forall x s e, fst (body x s) = Raised e -> P e) ->
  forall s e, fst (for_each xs body s) = Raised e -> P e.
Proof.
  intros Hbody. induction xs as [|x xs IH]; intros s e; [done|].
  cbn [for_each]. unfold bind.
  pose proof (Hbody x s) as Hx.
  destruct (body x s) as [[[]|e'] s']; cbn in Hx |- *.
  - apply IH.
  - intros [= <-]. by apply Hx.
Qed.

Lemma py_getitem_raised {A} (l : list A) (i : Z) (e : exn) :
  py_getitem l i = Raised e -> e = IndexError.
Proof.
  unfold py_getitem. destruct (py_index (length l) i) as [k|]; [|congruence].
  destruct (l !! k); congruence.
Qed.

Lemma draw_pixels_raised (img : Image.t) (q : QImage.t) (e : exn) :
  fst (ImageWidget.draw_pixels img q) = Raised e -> e = IndexError.
Proof.
  unfold ImageWidget.draw_pixels. cbv zeta.
  destruct (Image.get_image_format img =? Image.Format_BW); [|done].
  revert q e. apply for_each_raised. intros row.
  apply for_each_raised. intros col q e.
  unfold bind, lift_outcome, py_getitem2.
  destruct (py_getitem (Image.to_array img) row) as [r|e'] eqn:Hrow.
  - destruct (py_getitem r col) as [p|e''] eqn:Hcol; [done|].
    cbn. intros [= <-]. by apply (py_getitem_raised r col).
  - cbn. intros [= <-]. by apply (py_getitem_raised (Image.to_array img) row).
Qed.

Lemma set_image_raised (self : ImageWidget.t) (image : Image.t) (e : exn) :
  fst (ImageWidget.set_image image self) = Raised e -> e = IndexError.
Proof.
  unfold ImageWidget.set_image, ImageWidget._draw_image, ImageWidget.deref__image,
    ImageWidget.set__image, ImageWidget.set__qimage, ImageWidget.set__label,
    bind, get, modify, ret, lift_outcome.
  cbn. pose proof (draw_pixels_raised image
    (QImage.fill (QImage.qRgb 255 255 255)
       (QImage.new (Image.get_width image) (Image.get_height image)))) as Hdraw.
  destruct (ImageWidget.draw_pixels image _) as [[[]|e'] q]; cbn in Hdraw |- *; [done|].
  intros [= <-]. by apply Hdraw.
Qed.

Lemma open_file_action_logs (filepath : string)
    (from_file : string -> outcome Image.t) (window : MainWindow.t) :
  MainWindow.written (snd (MainWindow.open_file_action filepath from_file window))
  = MainWindow.written window
  /\ (MainWindow.shown (snd (MainWindow.open_file_action filepath from_file window))
      <> MainWindow.shown window ->
      exists msg, filepath <> EmptyString
                  /\ from_file filepath = Raised (ValueError msg)).
Proof.
  unfold MainWindow.open_file_action.
  destruct (bool_decide (filepath = EmptyString)) eqn:Hpath; [done|].
  apply bool_decide_eq_false in Hpath.
  unfold try_except_ValueError, bind, lift_outcome.
  destruct (from_file filepath) as [image|e].
  - unfold MainWindow.on_image_widget.
    pose proof (set_image_raised (MainWindow._image_widget window) image) as Hraised.
    destruct (ImageWidget.set_image image (MainWindow._image_widget window))
      as [[[]|e] widget']; cbn in Hraised |- *; [done|].
    by rewrite (Hraised e eq_refl).
  - destruct e as [| | |msg|msg]; cbn; try done.
    split; [done|]. intros _. by exists msg.
Qed.

Lemma on_image_widget_logs {A} (m : M ImageWidget.t A) (window : MainWindow.t) :
  MainWindow.written (snd (MainWindow.on_image_widget m window))
  = MainWindow.written window
  /\ MainWindow.shown (snd (MainWindow.on_image_widget m window))
     = MainWindow.shown window.
Proof.
  unfold MainWindow.on_image_widget.
  by destruct (m (MainWindow._image_widget window)).
Qed.

Lemma save_file_action_shown (filepath : string)
    (write_to_file : Image.t -> string -> outcome unit) (window : MainWindow.t) :
  MainWindow.shown (snd (MainWindow.save_file_action filepath write_to_file window))
  = MainWindow.shown window.
Proof.
  destruct window as [widget boxes files].
  unfold MainWindow.save_file_action, bind, MainWindow.on_image_widget,
    ImageWidget.get_image, ImageWidget.deref__image, get, ret, lift_outcome.
  cbn. destruct (ImageWidget._image widget) as [image|] eqn:Himage; cbn; [|done].
  destruct (bool_decide (filepath = EmptyString)); cbn; [done|].
  rewrite ?Himage. by destruct (write_to_file image filepath) as [[]|e].
Qed.

(** X18.  Message boxes and files have one source each: an event shows a
    message box only if it is an open-file request whose file failed to
    decode with a [ValueError], and an event adds to the written files
    only if it is a save request.  In particular a drawing failure after a
    successful decode is not reported in a message box, and pointer events
    and new-image dialogs show and write nothing. *)
Theorem X18_boxes_and_writes_have_one_source (ev : ShellEvent) (window : MainWindow.t) :
  (MainWindow.shown (snd (dispatch ev window)) <> MainWindow.shown window ->
   exists filepath from_file msg,
     ev = OpenFile filepath from_file /\ filepath <> EmptyString
     /\ from_file filepath = Raised (ValueError msg))
  /\ (MainWindow.written (snd (dispatch ev window)) <> MainWindow.written window ->
      exists filepath write_to_file, ev = SaveFile filepath write_to_file).
Proof.
  destruct ev as [user [|]|filepath from_file|filepath write_to_file|event|event];
    cbn [dispatch].
  - by rewrite new_file_action_rejected.
  - by rewrite new_file_action_accepted.
  - destruct (open_file_action_logs filepath from_file window) as [Hw Hs].
    split; [|done]. intros Hshown. destruct (Hs Hshown) as (msg & ? & ?).
    by exists filepath, from_file, msg.
  - split; [by rewrite save_file_action_shown|]. intros _.
    by exists filepath, write_to_file.
  - by destruct (on_image_widget_logs (ImageWidget.mouseMoveEvent event) window)
      as [-> ->].
  - by destruct (on_image_widget_logs (ImageWidget.mousePressEvent event) window)
      as [-> ->].
Qed.

(** ** Repeating an event *)

(** A successful [a[i][j] = v], with the positions it touched. *)
Lemma py_setitem2_positions {A} (a a' : list (list A)) (i j : Z) (v : A) :
  py_setitem2 a i j v = Returned a' ->
  exists k row c,
    py_index (length a) i = Some k /\ a !! k = Some row
    /\ py_index (length row) j = Some c
    /\ a' = alter (fun r => <[c:=v]> r) k a.
Proof.
  unfold py_setitem2, py_setitem. intros H.
  destruct (py_index (length a) i) as [k|] eqn:Hk; [|discriminate].
  destruct (a !! k) as [row|] eqn:Hrow; [|discriminate].
  destruct (py_index (length row) j) as [c|] eqn:Hc; [|discriminate].
  injection H as <-. exists k, row, c. repeat split; try done.
  by apply (insert_row_alter a k row (fun r => <[c:=v]> r)).
Qed.

Lemma py_setitem2_again {A} (a a' : list (list A)) (i j : Z) (v : A) :
  py_setitem2 a i j v = Returned a' -> py_setitem2 a' i j v = Returned a'.
Proof.
  intros H. destruct (py_setitem2_positions a a' i j v H)
    as (k & row & c & Hk & Hrow & Hc & ->).
  unfold py_setitem2, py_setitem.
  rewrite length_alter, Hk, list_lookup_alter_eq, Hrow. cbn.
  rewrite length_insert, Hc. f_equal.
  rewrite list_insert_insert_eq.
  apply list_eq. intros n. rewrite list_lookup_insert, list_lookup_alter.
  rewrite length_alter. pose proof (lookup_lt_Some _ _ _ Hrow).
  repeat case_decide; subst; try lia; by rewrite ?Hrow.
Qed.

Lemma _draw_pixel_twice (self : ImageWidget.t) (event : QMouseEvent) :
  (forall img, ImageWidget._image self = Some img -> Image.rectangular img) ->
  ImageWidget._draw_pixel event (snd (ImageWidget._draw_pixel event self))
  = ImageWidget._draw_pixel event self.
Proof.
  intros Hrect.
  destruct (ImageWidget._image self) as [img|] eqn:Himg;
    [destruct (ImageWidget._edit_mode self) eqn:Hedit|].
  - rewrite (_draw_pixel_editing self img event Himg Hedit).
    destruct (cell_of_event img event) as [[y_pos x_pos]|e] eqn:Hcell.
    + destruct ((x_pos >=? Image.get_width img) || (y_pos >=? Image.get_height img))
        eqn:Hbeyond.
      * cbn [snd]. rewrite (_draw_pixel_editing self img event Himg Hedit), Hcell.
        by rewrite Hbeyond.
      * unfold paint, bind, lift_outcome.
        destruct (py_setitem2 (Image.to_array img) y_pos x_pos 1) as [a'|e] eqn:Hset.
        -- destruct (py_setitem2_Returned _ _ _ _ _ Hset) as (k & c & Ha').
           assert (Image.new a' (Image.get_image_format img) = PixelBuffer_set img k c 1)
             as Hnew by (by rewrite Ha').
           unfold ImageWidget.set__image, modify. rewrite Hnew.
           rewrite (_draw_image_rectangular _ (PixelBuffer_set img k c 1));
             [|done|apply rectangular_set; by apply Hrect].
           cbn [snd ImageWidget._edit_mode]. rewrite Hedit.
           rewrite (_draw_pixel_editing (showing (PixelBuffer_set img k c 1) true)
                      (PixelBuffer_set img k c 1) event) by done.
           rewrite cell_of_event_set, Hcell, get_width_set, get_height_set, Hbeyond.
           unfold paint, bind, lift_outcome. rewrite <- Hnew. cbn [Image.to_array].
           rewrite (py_setitem2_again _ _ _ _ _ Hset).
           unfold ImageWidget.set__image, modify. cbn [Image.get_image_format].
           rewrite Hnew.
           rewrite (_draw_image_rectangular _ (PixelBuffer_set img k c 1));
             [done|done|apply rectangular_set; by apply Hrect].
        -- cbn [snd]. rewrite (_draw_pixel_editing self img event Himg Hedit), Hcell.
           rewrite Hbeyond. unfold paint, bind, lift_outcome. by rewrite Hset.
    + cbn [snd]. by rewrite (_draw_pixel_editing self img event Himg Hedit), Hcell.
  - rewrite (_draw_pixel_gated self event) by (by right). cbn [snd].
    by rewrite (_draw_pixel_gated self event) by (by right).
  - rewrite (_draw_pixel_gated self event) by (by left). cbn [snd].
    by rewrite (_draw_pixel_gated self event) by (by left).
Qed.

(** X19.  Repeating a pointer event adds nothing: on a widget whose image,
    if any, has rows of equal length, handling the same event a second
    time ends the same way as the first time, returned or raised, and
    leaves the widget exactly as the first handling left it, whatever the
    event denotes (a cell, a wrapped cell, a place beyond the image, or
    nothing because of a raised error). *)
Theorem X19_repeated_event_changes_nothing (self : ImageWidget.t)
    (event : QMouseEvent) :
  (forall img, ImageWidget._image self = Some img -> Image.rectangular img) ->
  ImageWidget._draw_pixel event (snd (ImageWidget._draw_pixel event self))
  = ImageWidget._draw_pixel event self.
Proof. apply _draw_pixel_twice. Qed.

Lemma X19_repeated_event_changes_nothing_witness :
  ImageWidget._draw_pixel {| pos_x := 5; pos_y := 109 |}
    (snd (ImageWidget._draw_pixel {| pos_x := 5; pos_y := 109 |} canvas_4x3))
  = ImageWidget._draw_pixel {| pos_x := 5; pos_y := 109 |} canvas_4x3.
Proof.
  apply (X19_repeated_event_changes_nothing canvas_4x3 {| pos_x := 5; pos_y := 109 |}).
  intros img [= <-]. by repeat constructor.
Defined.
